(** * Trust-fund ledger: a shallow embedding of [trust_fund_flask.py]

    The application stores donations ([Donor]) and distributions
    ([Distribution]) in two tables and serves four routes:

    - [GET /]            ([index]):      totals, balance and a per-category
                                          breakdown over all rows;
    - [GET|POST /donate] ([donate]):     records a donation;
    - [GET|POST /distribute] ([distribute]): records a distribution after a
                                          balance check;
    - [GET /api/stats]   ([get_stats]):  totals and balance over the rows whose
                                          status is ["completed"].

    Amounts are Python [float]s, that is IEEE 754 binary64 numbers.  They are
    modelled bit-exactly with the executable specification [SpecFloat] of the
    standard library ([prec = 53], [emax = 1024], round to nearest even).

    The tables are lists in insertion (rowid) order; a handler is a function
    from the request and the store to the new store and the response. *)

From Stdlib Require Import ZArith List String Ascii Bool Lia Permutation Sorted.
From Stdlib Require Import Floats.SpecFloat.
Import ListNotations.

Local Open Scope Z_scope.

(* ================================================================== *)
(** * Python values used by the handlers                               *)
(* ================================================================== *)

(** ** Floats: IEEE 754 binary64 *)

Module F64.

Definition prec : Z := 53.
Definition emax : Z := 1024.

Definition float : Type := spec_float.

(** [0.0]; the integer [0] that [sum] starts from and the default of the
    amount field behave as [+0.0] in every operation below, because Python
    converts an [int] operand to [float] before a mixed operation. *)
Definition zero : float := S754_zero false.

Definition add : float -> float -> float := SFadd prec emax.
Definition sub : float -> float -> float := SFsub prec emax.
Definition div : float -> float -> float := SFdiv prec emax.
Definition opp : float -> float := SFopp.
Definition abs : float -> float := SFabs.

(** [x == y], [x > y], [x >= y]: all three are [False] when an operand is
    NaN. *)
Definition eqb (x y : float) : bool := SFeqb x y.
Definition gtb (x y : float) : bool := SFltb y x.
Definition geb (x y : float) : bool := SFleb y x.

(** [bool(x)]: a float is falsy exactly when it compares equal to zero
    ([0.0] and [-0.0]); NaN and the infinities are truthy. *)
Definition truthy (x : float) : bool := negb (eqb x zero).

(** [math.isfinite] / [Py_IS_FINITE]. *)
Definition is_finite (x : float) : bool :=
  match x with
  | S754_zero _ | S754_finite _ _ _ => true
  | S754_infinity _ | S754_nan => false
  end.

(** [float(n)] for an integer [n]: the nearest binary64 number. *)
Definition of_Z (n : Z) : float := binary_normalize prec emax n 0 false.


End F64.

Definition float : Type := F64.float.

(** ** The builtin [sum] on floats

    [sum(d.amount for d in rows)] starts from the integer [0] and adds the
    items from left to right.  Up to CPython 3.11 every step is a plain
    float addition.  From CPython 3.12 on, once the running total is a float
    the remaining items are added with Neumaier's compensated summation: the
    rounding error of each addition is collected in [c], and [c] is added to
    the total at the end when it is non-zero and finite.  The source does not
    pin the interpreter version, so both behaviours are modelled and the
    development is parametric in the choice. *)

Inductive summation : Type :=
  | LeftToRight   (* CPython <= 3.11 *)
  | Compensated.  (* CPython >= 3.12 *)

Definition sum_left (l : list float) : float :=
  fold_left F64.add l F64.zero.

Definition neumaier_step (st : float * float) (x : float) : float * float :=
  let '(f_result, c) := st in
  let t := F64.add f_result x in
  let c' :=
    if F64.geb (F64.abs f_result) (F64.abs x)
    then F64.add c (F64.add (F64.sub f_result t) x)
    else F64.add c (F64.add (F64.sub x t) f_result) in
  (t, c').

Definition neumaier_finish (st : float * float) : float :=
  let '(f_result, c) := st in
  if F64.truthy c && F64.is_finite c then F64.add f_result c else f_result.

Definition sum_compensated (l : list float) : float :=
  match l with
  | [] => F64.zero
  | x :: rest =>
      neumaier_finish (fold_left neumaier_step rest (F64.add F64.zero x, F64.zero))
  end.

Definition pysum (alg : summation) (l : list float) : float :=
  match alg with
  | LeftToRight => sum_left l
  | Compensated => sum_compensated l
  end.

(** ** Dynamically typed form values *)

(** What [form.get(field, default)] can return in this program: a submitted
    string, or one of the defaults [None], [0], ['upi'], ['cash'], ['']. *)
Inductive pyval : Type :=
  | PyNone
  | PyStr (s : string)
  | PyInt (n : Z).

(** [bool(v)]. *)
Definition truthy_val (v : pyval) : bool :=
  match v with
  | PyNone => false
  | PyStr s => negb (String.eqb s "")
  | PyInt n => negb (n =? 0)
  end.

Definition pyval_eqb_str (v : pyval) (s : string) : bool :=
  match v with
  | PyStr s' => String.eqb s' s
  | _ => false
  end.

(** [all([...])] on already evaluated truth values. *)
Definition all (l : list bool) : bool := forallb (fun b => b) l.

(** Exceptions that the [try] blocks of the handlers can catch. *)
Inductive exn : Type :=
  | ValueError      (* float() of a string that is not a number *)
  | TypeError       (* float() of None *)
  | DatabaseError.  (* db.session.commit() failed *)

(** [request.form]: field name and submitted value, first match wins. *)
Definition Form : Type := list (string * string).

Fixpoint form_get (form : Form) (field : string) : option string :=
  match form with
  | [] => None
  | (k, v) :: rest => if String.eqb k field then Some v else form_get rest field
  end.

Definition get_form_data (form : Form) (field : string) (default : pyval) : pyval :=
  match form_get form field with
  | Some v => PyStr v
  | None => default
  end.

(* ================================================================== *)
(** * Database models                                                  *)
(* ================================================================== *)

Module Donor.
Record t : Type := mk {
  id : Z;
  name : pyval;
  email : pyval;
  amount : float;
  category : pyval;
  payment_method : pyval;
  payment_status : string;
  date : Z;
  message : pyval
}.
End Donor.

Module Distribution.
Record t : Type := mk {
  id : Z;
  beneficiary_name : pyval;
  amount : float;
  category : pyval;
  date : Z;
  purpose : pyval;
  status : string;
  payment_mode : pyval
}.
End Distribution.

(** The two tables, rows in insertion order. *)
Record Store : Type := mkStore {
  donors : list Donor.t;
  distributions : list Distribution.t
}.

Definition empty_store : Store := mkStore [] [].

(** [db.session.add(row); db.session.commit()]: the row is appended. *)
Definition add_donor (d : Donor.t) (s : Store) : Store :=
  mkStore (donors s ++ [d]) (distributions s).

Definition add_distribution (d : Distribution.t) (s : Store) : Store :=
  mkStore (donors s) (distributions s ++ [d]).

(** The primary key that the table assigns to the next row. *)
Definition next_id {A : Type} (rows : list A) : Z := Z.of_nat (List.length rows) + 1.

(** [.order_by(text('date DESC'))]: a stable sort on the timestamp, latest
    first. *)
Fixpoint insert_desc {A : Type} (key : A -> Z) (x : A) (l : list A) : list A :=
  match l with
  | [] => [x]
  | y :: rest =>
      if key y <=? key x then x :: y :: rest
      else y :: insert_desc key x rest
  end.

Definition order_by_desc {A : Type} (key : A -> Z) (l : list A) : list A :=
  fold_right (insert_desc key) [] l.

(** [.filter_by(payment_status='completed')] and [.filter_by(status='completed')]. *)
Definition completed_donors (rows : list Donor.t) : list Donor.t :=
  filter (fun d => String.eqb (Donor.payment_status d) "completed") rows.

Definition completed_distributions (rows : list Distribution.t) : list Distribution.t :=
  filter (fun d => String.eqb (Distribution.status d) "completed") rows.

(* ================================================================== *)
(** * Requests and responses                                           *)
(* ================================================================== *)

Inductive method : Type := GET | POST.

Record Request : Type := mkRequest {
  req_method : method;
  req_form : Form
}.

(** What a handler reads from its surroundings besides the store: the
    clock behind the column default [datetime.utcnow], and whether
    [db.session.commit()] goes through.  When it does not (a constraint of
    the table is violated, the database is locked, ...) it raises, the
    [except] branch of the handler reports the error, and the row is not
    stored.  Whether the commit goes through is the database's answer and
    is not computed here; in particular SQLite binds a NaN amount as NULL,
    which the NOT NULL column refuses, so for a row with a NaN amount the
    answer of the database is always a failure. *)
Record Env : Type := mkEnv {
  utcnow : Z;
  commit_ok : bool
}.

Inductive endpoint : Type := EpIndex | EpDonate | EpDistribute.

Inductive flash_category : Type := error | info | success.

Inductive flash_message : Type :=
  | MsgFillRequired                             (* 'Please fill in all required fields' *)
  | MsgUPI                                      (* 'Please complete your UPI payment using the QR code.' *)
  | MsgCard                                     (* 'You will be redirected to the secure payment gateway.' *)
  | MsgNetBanking                               (* 'Please complete your payment using net banking.' *)
  | MsgDonationError (e : exn)                  (* f'Error processing donation: {str(e)}' *)
  | MsgExceeds (amount balance : float)         (* f'Distribution amount (...) exceeds available balance (...)' *)
  | MsgRecorded                                 (* 'Distribution recorded successfully!' *)
  | MsgDistributionError (e : exn).             (* f'Error recording distribution: {str(e)}' *)

(** One entry of the dictionary [categories]. *)
Record Bucket : Type := mkBucket {
  bucket_donations : float;
  bucket_distributions : float
}.

(** A [dict] with string keys; Python keeps the keys in insertion order. *)
Definition Categories : Type := list (string * Bucket).

Record IndexContext : Type := mkIndexContext {
  ctx_donations : list Donor.t;
  ctx_distributions : list Distribution.t;
  ctx_total_donations : float;
  ctx_total_distributions : float;
  ctx_balance : float;
  ctx_categories : Categories
}.

Record Stats : Type := mkStats {
  stats_total_donations : float;
  stats_total_distributions : float;
  stats_balance : float
}.

Inductive Response : Type :=
  | RenderIndex (ctx : IndexContext)            (* render_template('index.html', ...) *)
  | RenderDonate                                (* render_template('donate.html') *)
  | RenderDistribute                            (* render_template('distribute.html') *)
  | Redirect (flashed : flash_message * flash_category) (target : endpoint)
  | Json (body : Stats)
  | MethodNotAllowed.                           (* a route called with a method it does not list *)

Inductive result (A : Type) : Type :=
  | Ok (a : A)
  | Raise (e : exn).
Arguments Ok {A} a.
Arguments Raise {A} e.

(* ================================================================== *)
(** * The category dictionary                                          *)
(* ================================================================== *)

Definition empty_bucket : Bucket := mkBucket F64.zero F64.zero.

Definition initial_categories : Categories :=
  [ ("education"%string, empty_bucket);
    ("healthcare"%string, empty_bucket);
    ("food"%string, empty_bucket);
    ("shelter"%string, empty_bucket);
    ("emergency"%string, empty_bucket) ].

(** The five fixed keys. *)
Definition category_keys : list string := map fst initial_categories.

(** [d[k]] *)
Fixpoint dict_get (d : Categories) (k : string) : option Bucket :=
  match d with
  | [] => None
  | (k', b) :: rest => if String.eqb k' k then Some b else dict_get rest k
  end.

(** [k in d]; a key that is not a string ([None]) is in no dictionary of
    this program. *)
Definition dict_mem (k : pyval) (d : Categories) : bool :=
  match k with
  | PyStr s => match dict_get d s with Some _ => true | None => false end
  | _ => false
  end.

(** [d[k] = f(d[k])] for a key that is present. *)
Fixpoint dict_update (d : Categories) (k : string) (f : Bucket -> Bucket) : Categories :=
  match d with
  | [] => []
  | (k', b) :: rest =>
      if String.eqb k' k then (k', f b) :: rest
      else (k', b) :: dict_update rest k f
  end.

Definition key_of (k : pyval) : string :=
  match k with PyStr s => s | _ => EmptyString end.

(** [categories[k]['donations'] += x] and [categories[k]['distributions'] += x] *)
Definition add_to_donations (x : float) (b : Bucket) : Bucket :=
  mkBucket (F64.add (bucket_donations b) x) (bucket_distributions b).

Definition add_to_distributions (x : float) (b : Bucket) : Bucket :=
  mkBucket (bucket_donations b) (F64.add (bucket_distributions b) x).

(** The bodies of the two [for] loops of [index]. *)
Definition count_donation (categories : Categories) (donation : Donor.t) : Categories :=
  if dict_mem (Donor.category donation) categories
  then dict_update categories (key_of (Donor.category donation))
         (add_to_donations (Donor.amount donation))
  else categories.

Definition count_distribution (categories : Categories) (distribution : Distribution.t) : Categories :=
  if dict_mem (Distribution.category distribution) categories
  then dict_update categories (key_of (Distribution.category distribution))
         (add_to_distributions (Distribution.amount distribution))
  else categories.

(* ================================================================== *)
(** * The request handlers                                             *)
(* ================================================================== *)

Section App.

(** The builtin [float] on a string: [None] stands for the [ValueError]
    raised on text that is not a number.  The parser is the interpreter's,
    not the program's, and is taken as a parameter. *)
Variable float_of_str : string -> option float.

(** The summation that the interpreter's builtin [sum] performs. *)
Variable alg : summation.

(** [float(v)] *)
Definition py_float (v : pyval) : result float :=
  match v with
  | PyStr s => match float_of_str s with Some x => Ok x | None => Raise ValueError end
  | PyInt n => Ok (F64.of_Z n)
  | PyNone => Raise TypeError
  end.

(** Lines 56-74 of [index]: the aggregation over the rows handed in. *)
Definition summarize (donations : list Donor.t) (distributions : list Distribution.t)
  : IndexContext :=
  let total_donations := pysum alg (map Donor.amount donations) in
  let total_distributions := pysum alg (map Distribution.amount distributions) in
  let balance := F64.sub total_donations total_distributions in
  let categories := initial_categories in
  let categories := fold_left count_donation donations categories in
  let categories := fold_left count_distribution distributions categories in
  mkIndexContext donations distributions
    total_donations total_distributions balance categories.

(** [GET /].  Both queries list every row, newest first. *)
Definition index (env : Env) (req : Request) (s : Store) : Store * Response :=
  let donations := order_by_desc Donor.date (donors s) in
  let distributions := order_by_desc Distribution.date (distributions s) in
  (s, RenderIndex (summarize donations distributions)).

(** [GET|POST /donate].  The row is built before the required fields are
    checked, as in the source.  [id], [payment_status] and [date] are not
    passed to the constructor: the table fills them in on insertion with the
    next key and the column defaults ['pending'] and [datetime.utcnow()]. *)
Definition donate (env : Env) (req : Request) (s : Store) : Store * Response :=
  match req_method req with
  | POST =>
      let form_data := req_form req in
      match py_float (get_form_data form_data "amount" (PyInt 0)) with
      | Raise e => (s, Redirect (MsgDonationError e, error) EpDonate)
      | Ok amount =>
          let donor :=
            Donor.mk (next_id (donors s))
              (get_form_data form_data "name" PyNone)
              (get_form_data form_data "email" PyNone)
              amount
              (get_form_data form_data "category" PyNone)
              (get_form_data form_data "payment_method" (PyStr "upi"))
              "pending"
              (utcnow env)
              (get_form_data form_data "message" (PyStr "")) in
          if negb (all [ truthy_val (Donor.name donor);
                         truthy_val (Donor.email donor);
                         F64.truthy (Donor.amount donor);
                         truthy_val (Donor.category donor) ])
          then (s, Redirect (MsgFillRequired, error) EpDonate)
          else if commit_ok env then
            (add_donor donor s,
             Redirect
               (if pyval_eqb_str (Donor.payment_method donor) "upi" then (MsgUPI, info)
                else if pyval_eqb_str (Donor.payment_method donor) "card" then (MsgCard, info)
                else (MsgNetBanking, info))
               EpIndex)
          else (s, Redirect (MsgDonationError DatabaseError, error) EpDonate)
      end
  | GET => (s, RenderDonate)
  end.

(** Lines 128-132 of [distribute] and 164-168 of [get_stats]: the totals
    over the completed rows. *)
Definition completed_total_donations (s : Store) : float :=
  pysum alg (map Donor.amount (completed_donors (donors s))).

Definition completed_total_distributions (s : Store) : float :=
  pysum alg (map Distribution.amount (completed_distributions (distributions s))).

Definition current_balance (s : Store) : float :=
  F64.sub (completed_total_donations s) (completed_total_distributions s).

(** [GET|POST /distribute].  The balance is computed and compared first;
    only then is the row built (with [status='completed'] passed
    explicitly) and are the required fields checked. *)
Definition distribute (env : Env) (req : Request) (s : Store) : Store * Response :=
  match req_method req with
  | POST =>
      let form_data := req_form req in
      match py_float (get_form_data form_data "amount" (PyInt 0)) with
      | Raise e => (s, Redirect (MsgDistributionError e, error) EpDistribute)
      | Ok distribution_amount =>
          let donations := completed_donors (donors s) in
          let distributions_ := completed_distributions (distributions s) in
          let total_donations := pysum alg (map Donor.amount donations) in
          let total_distributions := pysum alg (map Distribution.amount distributions_) in
          let current_balance := F64.sub total_donations total_distributions in
          if F64.gtb distribution_amount current_balance
          then (s, Redirect (MsgExceeds distribution_amount current_balance, error) EpDistribute)
          else
            let distribution :=
              Distribution.mk (next_id (distributions s))
                (get_form_data form_data "beneficiary_name" PyNone)
                distribution_amount
                (get_form_data form_data "category" PyNone)
                (utcnow env)
                (get_form_data form_data "purpose" PyNone)
                "completed"
                (get_form_data form_data "payment_mode" (PyStr "cash")) in
            if negb (all [ truthy_val (Distribution.beneficiary_name distribution);
                           F64.truthy (Distribution.amount distribution);
                           truthy_val (Distribution.category distribution);
                           truthy_val (Distribution.purpose distribution) ])
            then (s, Redirect (MsgFillRequired, error) EpDistribute)
            else if commit_ok env then
              (add_distribution distribution s, Redirect (MsgRecorded, success) EpIndex)
            else (s, Redirect (MsgDistributionError DatabaseError, error) EpDistribute)
      end
  | GET => (s, RenderDistribute)
  end.

(** [GET /api/stats].  The two filtered queries carry no [order_by]: the
    rows come in table order. *)
Definition get_stats (env : Env) (req : Request) (s : Store) : Store * Response :=
  let donations := completed_donors (donors s) in
  let distributions_ := completed_distributions (distributions s) in
  let total_donations := pysum alg (map Donor.amount donations) in
  let total_distributions := pysum alg (map Distribution.amount distributions_) in
  (s, Json (mkStats total_donations total_distributions
              (F64.sub total_donations total_distributions))).

(** The routing table. *)
Inductive route : Type := RIndex | RDonate | RDistribute | RStats.

Definition handle (r : route) (env : Env) (req : Request) (s : Store) : Store * Response :=
  match r, req_method req with
  | RIndex, GET => index env req s
  | RStats, GET => get_stats env req s
  | RDonate, _ => donate env req s
  | RDistribute, _ => distribute env req s
  | _, _ => (s, MethodNotAllowed)
  end.

(** The stores that the application can produce, starting from empty
    tables. *)
Inductive reachable : Store -> Prop :=
  | reachable_empty : reachable empty_store
  | reachable_step : forall s r env req,
      reachable s -> reachable (fst (handle r env req s)).

(** Observations on a response. *)
Definition is_error (resp : Response) : bool :=
  match resp with
  | Redirect (_, error) _ => true
  | _ => false
  end.

Definition balance_exceeded (resp : Response) : bool :=
  match resp with
  | Redirect (MsgExceeds _ _, error) EpDistribute => true
  | _ => false
  end.

End App.

(* ================================================================== *)
(** * A decimal-literal instance of [float]                            *)
(* ================================================================== *)

(** [float] on the plain decimal literals [[+-]digits[.digits]], correctly
    rounded; every other text is rejected here.  It instantiates the parser
    parameter in the worked examples. *)

Definition digit_value (c : ascii) : option Z :=
  let n := Z.of_nat (nat_of_ascii c) in
  if (48 <=? n) && (n <=? 57) then Some (n - 48) else None.

(** Reads digits, then optionally a point and more digits.  Returns the
    digits read as one integer, the number of digits after the point, and
    whether any digit was seen. *)
Fixpoint read_decimal (s : string) (after_point : bool) (m k : Z) (seen : bool)
  : option (Z * Z) :=
  match s with
  | EmptyString => if seen then Some (m, k) else None
  | String c rest =>
      match digit_value c with
      | Some d => read_decimal rest after_point (10 * m + d)
                    (if after_point then k + 1 else k) true
      | None =>
          if Ascii.eqb c "."%char && negb after_point
          then read_decimal rest true m k seen
          else None
      end
  end.

Definition decimal_to_float (negative : bool) (m k : Z) : float :=
  match m with
  | Zpos p => F64.div (S754_finite negative p 0) (S754_finite false (Z.to_pos (10 ^ k)) 0)
  | _ => S754_zero negative
  end.

Definition sample_float_of_str (s : string) : option float :=
  let '(negative, body) :=
    match s with
    | String "-"%char rest => (true, rest)
    | String "+"%char rest => (false, rest)
    | _ => (false, s)
    end in
  match read_decimal body false 0 0 false with
  | Some (m, k) => Some (decimal_to_float negative m k)
  | None => None
  end.

(* ================================================================== *)
(** * Whole-number amounts                                             *)
(* ================================================================== *)

(** A mantissa-exponent pair in the canonical form of binary64. *)
Definition canonical (q : positive) (E : Z) : Prop :=
  fexp F64.prec F64.emax (Zpos (digits2_pos q) + E) = E /\ E <= F64.emax - F64.prec.

(** The canonical mantissa and exponent of a positive integer below [2^53]. *)
Definition int_exponent (p : positive) : Z := Zpos (digits2_pos p) - F64.prec.
Definition int_mantissa (p : positive) : positive :=
  Z.to_pos (Zpos p * 2 ^ (- int_exponent p)).

(** The mathematical sum of a list of integers. *)
Definition Zsum (l : list Z) : Z := fold_right Z.add 0 l.


(* ================================================================== *)
(** * Vocabulary of the statements                                     *)
(* ================================================================== *)

(** A field that the form does not carry, or carries as the empty string. *)
Definition blank (form : Form) (field : string) : Prop :=
  form_get form field = None \/ form_get form field = Some EmptyString.

(** The rows tagged with category [c]. *)
Definition donations_in (c : string) (rows : list Donor.t) : list Donor.t :=
  filter (fun d => pyval_eqb_str (Donor.category d) c) rows.

Definition distributions_in (c : string) (rows : list Distribution.t)
  : list Distribution.t :=
  filter (fun d => pyval_eqb_str (Distribution.category d) c) rows.

(** A category value that is none of the five keys. *)
Definition unrecognized (category : pyval) : Prop :=
  forall c, In c category_keys -> pyval_eqb_str category c = false.

(** The amounts are the non-negative whole numbers [zs], and their total is
    below [2^53]. *)
Definition whole_amounts (amounts : list float) (zs : list Z) : Prop :=
  amounts = map F64.of_Z zs /\ Forall (fun z => 0 <= z) zs /\ Zsum zs < 2 ^ 53.

Definition every_row_completed (s : Store) : Prop :=
  Forall (fun d => Donor.payment_status d = "completed"%string) (donors s)
  /\ Forall (fun d => Distribution.status d = "completed"%string) (distributions s).

(** The three figures that both GET / and GET /api/stats report:
    [total_donations], [total_distributions] and [balance]. *)
Definition response_totals (resp : Response) : option (float * float * float) :=
  match resp with
  | RenderIndex ctx =>
      Some (ctx_total_donations ctx, ctx_total_distributions ctx, ctx_balance ctx)
  | Json body =>
      Some (stats_total_donations body, stats_total_distributions body, stats_balance body)
  | _ => None
  end.

(** ** Sample data for the worked examples *)

Definition sample_env : Env := mkEnv 1700000000 true.

Definition post (form : Form) : Request := mkRequest POST form.

Definition donation_form (amount : string) : Form :=
  [ ("name", "Asha"); ("email", "asha@example.org");
    ("amount", amount); ("category", "food") ]%string.

Definition distribution_form (amount : string) : Form :=
  [ ("beneficiary_name", "Ravi"); ("amount", amount);
    ("category", "food"); ("purpose", "meals") ]%string.

Definition sample_donor (id : Z) (amount : float) (category status : string) (date : Z)
  : Donor.t :=
  Donor.mk id (PyStr "Asha") (PyStr "asha@example.org") amount (PyStr category)
    (PyStr "upi") status date (PyStr "").

Definition sample_distribution (id : Z) (amount : float) (category status : string) (date : Z)
  : Distribution.t :=
  Distribution.mk id (PyStr "Ravi") amount (PyStr category) date (PyStr "meals")
    status (PyStr "cash").

(** One completed donation of 1000 for education, no distribution. *)
Definition scenario_store : Store :=
  mkStore [sample_donor 1 (F64.of_Z 1000) "education" "completed" 1] [].

(** Completed rows with the given primary keys and amounts; the timestamp
    of a row is its key, so later rows are newer. *)
Definition completed_donors_of (rows : list (Z * float)) : list Donor.t :=
  map (fun '(i, a) => sample_donor i a "food" "completed" i) rows.

Definition completed_distributions_of (rows : list (Z * float)) : list Distribution.t :=
  map (fun '(i, a) => sample_distribution i a "food" "completed" i) rows.

(** Four amounts whose float sum depends on the order of the additions:
    [2^106], [2^53], [1], [1]. *)
Definition order_sensitive_rows : list (Z * float) :=
  [ (1, F64.of_Z (2 ^ 106)); (2, F64.of_Z (2 ^ 53)); (3, F64.of_Z 1); (4, F64.of_Z 1) ].

Definition store_in_order : Store :=
  mkStore (completed_donors_of order_sensitive_rows) [].

(** The same four amounts given to the rows in the opposite order. *)
Definition order_sensitive_rows_reversed : list (Z * float) :=
  [ (1, F64.of_Z 1); (2, F64.of_Z 1); (3, F64.of_Z (2 ^ 53)); (4, F64.of_Z (2 ^ 106)) ].

Definition store_reordered : Store :=
  mkStore (completed_donors_of order_sensitive_rows_reversed) [].

(** The same four amounts as completed distributions, oldest row first. *)
Definition store_dated : Store :=
  mkStore [] (completed_distributions_of order_sensitive_rows).

(** One pending donation of 1000. *)
Definition pending_store : Store :=
  mkStore [sample_donor 1 (F64.of_Z 1000) "education" "pending" 1] [].

(** Two completed donations: 500 for food, 300 under a tag that is not a
    category key. *)
Definition two_donations : list Donor.t :=
  [ sample_donor 1 (F64.of_Z 500) "food" "completed" 1;
    sample_donor 2 (F64.of_Z 300) "unknown" "completed" 2 ].

Definition two_donations_store : Store := mkStore two_donations [].

(** The same two amounts, given to the two rows the other way round. *)
Definition two_donations_swapped : list Donor.t :=
  [ sample_donor 1 (F64.of_Z 300) "unknown" "completed" 1;
    sample_donor 2 (F64.of_Z 500) "food" "completed" 2 ].

(** The store after a donation of 500 and then a distribution of -5 (with
    no completed donation the balance is 0, so only an amount that is not
    positive passes the check). *)
Definition store_after_donation : Store :=
  fst (handle sample_float_of_str LeftToRight RDonate sample_env
         (post (donation_form "500")) empty_store).

Definition store_after_distribution : Store :=
  fst (handle sample_float_of_str LeftToRight RDistribute sample_env
         (post (distribution_form "-5")) store_after_donation).

(** A text column that holds a non-empty string. *)
Definition filled (v : pyval) : Prop :=
  exists text, v = PyStr text /\ text <> EmptyString.

(** A column that holds a string, possibly empty. *)
Definition textual (v : pyval) : Prop := exists text, v = PyStr text.

Definition donor_well_formed (d : Donor.t) : Prop :=
  filled (Donor.name d) /\ filled (Donor.email d) /\ filled (Donor.category d)
  /\ F64.truthy (Donor.amount d) = true
  /\ textual (Donor.payment_method d) /\ textual (Donor.message d).

Definition distribution_well_formed (d : Distribution.t) : Prop :=
  filled (Distribution.beneficiary_name d) /\ filled (Distribution.category d)
  /\ filled (Distribution.purpose d)
  /\ F64.truthy (Distribution.amount d) = true
  /\ textual (Distribution.payment_mode d).

(** The message that follows a stored donation, as a function of the
    submitted [payment_method] field. *)
Definition payment_message (submitted : option string) : flash_message :=
  match submitted with
  | None => MsgUPI
  | Some m =>
      if String.eqb m "upi" then MsgUPI
      else if String.eqb m "card" then MsgCard
      else MsgNetBanking
  end.
(** Every way a request can end, with what it leaves in the tables: a page
    or JSON body and no write; an error message, a redirect back to the
    form and no write; or one appended row and a redirect to the index
    page. *)
Inductive outcome (alg : summation) (env : Env) (req : Request) (s : Store)
  : route -> Store * Response -> Prop :=
  | out_read : forall r resp,
      (forall m c t, resp <> Redirect (m, c) t) ->
      outcome alg env req s r (s, resp)
  | out_refused : forall r m t,
      t <> EpIndex ->
      outcome alg env req s r (s, Redirect (m, error) t)
  | out_donated : forall d m,
      req_method req = POST -> commit_ok env = true ->
      donor_well_formed d -> Donor.payment_status d = "pending"%string ->
      Donor.date d = utcnow env ->
      outcome alg env req s RDonate (add_donor d s, Redirect (m, info) EpIndex)
  | out_distributed : forall d,
      req_method req = POST -> commit_ok env = true ->
      distribution_well_formed d -> Distribution.status d = "completed"%string ->
      Distribution.date d = utcnow env ->
      F64.gtb (Distribution.amount d) (current_balance alg s) = false ->
      outcome alg env req s RDistribute
        (add_distribution d s, Redirect (MsgRecorded, success) EpIndex).

(** Rows in date-descending order: each row is at least as new as every
    row listed after it. *)
Definition newest_first {A : Type} (date : A -> Z) (rows : list A) : Prop :=
  StronglySorted (fun a b => date b <= date a) rows.

(** Minus infinity and NaN: the amounts that are never greater than a
    balance. *)
Definition never_greater (x : float) : bool :=
  match x with
  | S754_infinity true | S754_nan => true
  | _ => false
  end.

(** Plus infinity and NaN: the balances that no amount is greater than. *)
Definition never_exceeded (x : float) : bool :=
  match x with
  | S754_infinity false | S754_nan => true
  | _ => false
  end.

(** [float] also reads the spellings ['inf'], ['-inf'] and ['nan']. *)
Definition special_float_of_str (s : string) : option float :=
  if String.eqb s "-inf" then Some (S754_infinity true)
  else if String.eqb s "inf" then Some (S754_infinity false)
  else if String.eqb s "nan" then Some S754_nan
  else sample_float_of_str s.

(** The store after a distribution of minus infinity into empty tables. *)
Definition store_after_infinity : Store :=
  fst (distribute special_float_of_str LeftToRight sample_env
         (post (distribution_form "-inf")) empty_store).

(** An environment in which the commit fails. *)
Definition failing_env : Env := mkEnv 1700000000 false.

(** The whole-number amounts of [two_donations], by primary key. *)
Definition two_donations_amount (d : Donor.t) : Z :=
  if Donor.id d =? 1 then 500 else 300.

(* ================================================================== *)
(** * The home page on the interpreter's heap                          *)
(* ================================================================== *)

(** In [index] the dictionary [categories] is a mutable object holding five
    more mutable objects, the inner dictionaries, one per literal
    [{'donations': 0.0, 'distributions': 0.0}], and the two loops update
    them in place.  Here [index] is written once more with these objects on
    a heap that outlives the request, so that what the function reads and
    what it writes can be stated. *)

(** The inner dictionaries alive in the process, by address. *)
Definition Heap : Type := list Bucket.

(** The Python process as a request finds it: the tables and the heap. *)
Record Process : Type := mkProcess {
  proc_store : Store;
  proc_heap : Heap
}.

(** A piece of handler code: it returns a value and may change the
    process. *)
Definition Action (A : Type) : Type := Process -> A * Process.

Definition ret {A : Type} (a : A) : Action A := fun p => (a, p).

Definition bind {A B : Type} (m : Action A) (k : A -> Action B) : Action B :=
  fun p => let '(a, p') := m p in k a p'.

(** [h[a] = f(h[a])] *)
Fixpoint heap_update (h : Heap) (a : nat) (f : Bucket -> Bucket) : Heap :=
  match h, a with
  | [], _ => []
  | b :: rest, O => f b :: rest
  | b :: rest, S a' => b :: heap_update rest a' f
  end.

(** [db.session.query(Donor).order_by(text('date DESC')).all()] *)
Definition query_donors_newest_first : Action (list Donor.t) :=
  fun p => (order_by_desc Donor.date (donors (proc_store p)), p).

Definition query_distributions_newest_first : Action (list Distribution.t) :=
  fun p => (order_by_desc Distribution.date (distributions (proc_store p)), p).

(** A dictionary literal: a new object at the next free address. *)
Definition new_object (b : Bucket) : Action nat :=
  fun p => (List.length (proc_heap p),
            mkProcess (proc_store p) (proc_heap p ++ [b])).

(** An in-place update of the object at address [a]. *)
Definition update_object (a : nat) (f : Bucket -> Bucket) : Action unit :=
  fun p => (tt, mkProcess (proc_store p) (heap_update (proc_heap p) a f)).

(** The outer dictionary: each key with the address of its inner
    dictionary. *)
Definition ObjectDict : Type := list (string * nat).

Fixpoint object_lookup (d : ObjectDict) (k : string) : option nat :=
  match d with
  | [] => None
  | (k', a) :: rest => if String.eqb k' k then Some a else object_lookup rest k
  end.

(** Lines 60-66: five literals, five objects. *)
Definition categories_literal : Action ObjectDict :=
  bind (new_object empty_bucket) (fun education =>
  bind (new_object empty_bucket) (fun healthcare =>
  bind (new_object empty_bucket) (fun food =>
  bind (new_object empty_bucket) (fun shelter =>
  bind (new_object empty_bucket) (fun emergency =>
  ret [ ("education"%string, education); ("healthcare"%string, healthcare);
        ("food"%string, food); ("shelter"%string, shelter);
        ("emergency"%string, emergency) ]))))).

(** Lines 69-70 and 73-74. *)
Definition tally_donation (categories : ObjectDict) (donation : Donor.t) : Action unit :=
  match Donor.category donation with
  | PyStr k =>
      match object_lookup categories k with
      | Some a => update_object a (add_to_donations (Donor.amount donation))
      | None => ret tt
      end
  | _ => ret tt
  end.

Definition tally_distribution (categories : ObjectDict) (distribution : Distribution.t)
  : Action unit :=
  match Distribution.category distribution with
  | PyStr k =>
      match object_lookup categories k with
      | Some a => update_object a (add_to_distributions (Distribution.amount distribution))
      | None => ret tt
      end
  | _ => ret tt
  end.

(** [for x in rows: body(x)] *)
Fixpoint for_each {A : Type} (rows : list A) (body : A -> Action unit) : Action unit :=
  match rows with
  | [] => ret tt
  | x :: rest => bind (body x) (fun _ => for_each rest body)
  end.

(** What the template gets to see of [categories]. *)
Definition dereference (h : Heap) (d : ObjectDict) : Categories :=
  map (fun '(k, a) => (k, nth a h empty_bucket)) d.

Definition read_categories (categories : ObjectDict) : Action Categories :=
  fun p => (dereference (proc_heap p) categories, p).

(** [index], statement by statement. *)
Definition index_program (alg : summation) (env : Env) (req : Request) : Action Response :=
  bind query_donors_newest_first (fun donations =>
  bind query_distributions_newest_first (fun distributions =>
  let total_donations := pysum alg (map Donor.amount donations) in
  let total_distributions := pysum alg (map Distribution.amount distributions) in
  let balance := F64.sub total_donations total_distributions in
  bind categories_literal (fun categories =>
  bind (for_each donations (tally_donation categories)) (fun _ =>
  bind (for_each distributions (tally_distribution categories)) (fun _ =>
  bind (read_categories categories) (fun shown =>
  ret (RenderIndex
         (mkIndexContext donations distributions
            total_donations total_distributions balance shown)))))))).

(** The outer dictionary refers to distinct objects of the heap, none of
    them among the first [n]. *)
Definition own_objects (n : nat) (d : ObjectDict) (h : Heap) : Prop :=
  NoDup (map snd d) /\ Forall (fun a => (n <= a < List.length h)%nat) (map snd d).

(** The process [q] differs from [p] at most in objects beyond the first
    [n]. *)
Definition same_but_objects_from (n : nat) (p q : Process) : Prop :=
  proc_store q = proc_store p
  /\ List.length (proc_heap q) = List.length (proc_heap p)
  /\ firstn n (proc_heap q) = firstn n (proc_heap p).

(** The stores that the application can produce starting from the store
    [s0]. *)
Inductive reachable_from (float_of_str : string -> option float) (alg : summation)
    (s0 : Store) : Store -> Prop :=
  | from_here : reachable_from float_of_str alg s0 s0
  | from_step : forall s r env req,
      reachable_from float_of_str alg s0 s ->
      reachable_from float_of_str alg s0 (fst (handle float_of_str alg r env req s)).

(** The store after one more distribution, of 1000000. *)
Definition store_after_infinity_and_million : Store :=
  fst (handle special_float_of_str LeftToRight RDistribute sample_env
         (post (distribution_form "1000000")) store_after_infinity).

(* ================================================================== *)
(** * Facts about float comparison                                     *)
(* ================================================================== *)

Lemma SFcompare_Eq_sym (x y : spec_float) :
  SFcompare x y = Some Eq -> SFcompare y x = Some Eq.
Proof.
  destruct x as [sx|sx| |sx mx ex], y as [sy|sy| |sy my ey]; simpl;
    try congruence;
    try (destruct sx; congruence); try (destruct sy; congruence);
    try (destruct sx, sy; congruence).
  change (Pos.compare_cont Eq mx my) with (Pos.compare mx my).
  change (Pos.compare_cont Eq my mx) with (Pos.compare my mx).
  rewrite (Z.compare_antisym ex ey), (Pos.compare_antisym mx my).
  destruct sx, sy; try congruence;
    destruct (ex ?= ey); simpl; try congruence;
    destruct (mx ?= my)%positive; simpl; congruence.
Qed.

(** Two floats that compare equal are not ordered by [>]. *)
Lemma eqb_not_gtb (x y : float) : F64.eqb x y = true -> F64.gtb x y = false.
Proof.
  unfold F64.eqb, F64.gtb, SFeqb, SFltb. intros H.
  destruct (SFcompare x y) as [[| |]|] eqn:E; try discriminate.
  now rewrite (SFcompare_Eq_sym _ _ E).
Qed.


(* ================================================================== *)
(** * Float addition is exact on whole numbers below [2^53]            *)
(* ================================================================== *)

Lemma iter_pos_nat {A : Type} (f : A -> A) (p : positive) (x : A) :
  iter_pos f p x = Nat.iter (Pos.to_nat p) f x.
Proof.
  revert x. induction p as [p IH|p IH|]; intros x.
  - rewrite Pos2Nat.inj_xI. cbn [iter_pos].
    rewrite !IH, <- Nat.iter_add, <- Nat.iter_succ_r. f_equal. lia.
  - rewrite Pos2Nat.inj_xO. cbn [iter_pos].
    rewrite !IH, <- Nat.iter_add. f_equal. lia.
  - reflexivity.
Qed.

Lemma shr_1_exact (n : nat) : forall q p : positive,
  Zpos p = Zpos q * 2 ^ Z.of_nat n ->
  Nat.iter n shr_1 (Build_shr_record (Zpos p) false false)
  = Build_shr_record (Zpos q) false false.
Proof.
  induction n as [|n IH]; intros q p H.
  - change (Z.of_nat 0) with 0 in H. rewrite Z.pow_0_r, Z.mul_1_r in H.
    now inversion H.
  - rewrite Nat.iter_succ, (IH (xO q) p).
    + reflexivity.
    + rewrite H, Nat2Z.inj_succ, Z.pow_succ_r by lia.
      change (Z.pos q~0) with (2 * Z.pos q). ring.
Qed.

Lemma digits2_pos_shift (n : nat) : forall q p : positive,
  Zpos p = Zpos q * 2 ^ Z.of_nat n ->
  Zpos (digits2_pos p) = Zpos (digits2_pos q) + Z.of_nat n.
Proof.
  induction n as [|n IH]; intros q p H.
  - change (Z.of_nat 0) with 0 in H. rewrite Z.pow_0_r, Z.mul_1_r in H.
    inversion H. lia.
  - rewrite (IH (xO q) p).
    + simpl digits2_pos. lia.
    + rewrite H, Nat2Z.inj_succ, Z.pow_succ_r by lia.
      change (Z.pos q~0) with (2 * Z.pos q). ring.
Qed.

Lemma digits2_pos_size (p : positive) : digits2_pos p = Pos.size p.
Proof. induction p; simpl; congruence. Qed.

Lemma digits2_pos_le (p : positive) (k : Z) :
  0 <= k -> Zpos p < 2 ^ k -> Zpos (digits2_pos p) <= k.
Proof.
  intros Hk H. rewrite digits2_pos_size.
  pose proof (Pos.size_le p) as L.
  apply Pos2Z.pos_le_pos in L. rewrite Pos2Z.inj_pow in L.
  change (Z.pos p~0) with (2 * Z.pos p) in L.
  assert (2 ^ Zpos (Pos.size p) < 2 ^ (k + 1)).
  { replace (k + 1) with (Z.succ k) by lia. rewrite Z.pow_succ_r by lia.
    change (2 ^ Z.pos (Pos.size p)) with (Z.pos 2 ^ Z.pos (Pos.size p)). lia. }
  apply Z.pow_lt_mono_r_iff in H0; lia.
Qed.

Lemma pos_iter_xO (p d : positive) :
  Zpos (Pos.iter xO p d) = Zpos p * 2 ^ Zpos d.
Proof.
  revert p. induction d using Pos.peano_ind; intros p.
  - simpl. lia.
  - rewrite Pos.iter_succ, Pos2Z.inj_succ, Z.pow_succ_r by lia.
    change (Z.pos (Pos.iter xO p d)~0) with (2 * Z.pos (Pos.iter xO p d)).
    rewrite IHd. ring.
Qed.

Lemma binary_round_aux_canonical (s : bool) (q : positive) (E : Z) :
  canonical q E ->
  binary_round_aux F64.prec F64.emax s (Zpos q) E loc_Exact = S754_finite s q E.
Proof.
  intros [Hf HE]. unfold binary_round_aux, shr_fexp.
  cbn [Zdigits2 shr_record_of_loc]. rewrite Hf, Z.sub_diag.
  cbn [shr shr_m loc_of_shr_record round_nearest_even Zdigits2].
  rewrite Hf, Z.sub_diag. cbn [shr shr_m].
  apply Z.leb_le in HE. now rewrite HE.
Qed.

Lemma binary_round_aux_shift (s : bool) (p q : positive) (e E : Z) :
  e < E -> Zpos p = Zpos q * 2 ^ (E - e) -> canonical q E ->
  binary_round_aux F64.prec F64.emax s (Zpos p) e loc_Exact = S754_finite s q E.
Proof.
  intros He Hp [Hf HE].
  destruct (E - e) as [|k|k] eqn:Hk; try lia.
  assert (Hd : Zpos (digits2_pos p) + e = Zpos (digits2_pos q) + E).
  { rewrite (digits2_pos_shift (Pos.to_nat k) q p); rewrite positive_nat_Z; [lia|exact Hp]. }
  unfold binary_round_aux, shr_fexp.
  cbn [Zdigits2 shr_record_of_loc]. rewrite Hd, Hf, Hk.
  cbn [shr]. rewrite iter_pos_nat, (shr_1_exact (Pos.to_nat k) q p)
    by (now rewrite positive_nat_Z).
  cbn [shr_m loc_of_shr_record round_nearest_even Zdigits2].
  replace (e + Zpos k) with E by lia.
  rewrite Hf, Z.sub_diag. cbn [shr shr_m].
  apply Z.leb_le in HE. now rewrite HE.
Qed.

(** Rounding a mantissa-exponent pair whose value has a canonical
    representation returns that representation: nothing is rounded off. *)
Lemma binary_round_exact (s : bool) (p q : positive) (e E : Z) :
  (E <= e /\ Zpos q = Zpos p * 2 ^ (e - E)) \/
  (e < E /\ Zpos p = Zpos q * 2 ^ (E - e)) ->
  canonical q E ->
  binary_round F64.prec F64.emax s p e = S754_finite s q E.
Proof.
  intros H Hc. pose proof Hc as [Hf HE]. unfold binary_round.
  destruct H as [[He Hq]|[He Hp]].
  - assert (Hd : Zpos (digits2_pos p) + e = Zpos (digits2_pos q) + E).
    { rewrite (digits2_pos_shift (Z.to_nat (e - E)) p q); rewrite Z2Nat.id by lia; [lia|exact Hq]. }
    rewrite Hd, Hf. unfold shl_align.
    destruct (E - e) as [|k|k] eqn:Hk; try lia.
    + assert (e = E) by lia. subst e. rewrite Z.sub_diag, Z.pow_0_r, Z.mul_1_r in Hq.
      injection Hq as <-. now apply binary_round_aux_canonical.
    + replace (Pos.iter xO p k) with q.
      * now apply binary_round_aux_canonical.
      * apply Pos2Z.inj. rewrite pos_iter_xO, Hq. f_equal. f_equal. lia.
  - assert (Hd : Zpos (digits2_pos p) + e = Zpos (digits2_pos q) + E).
    { rewrite (digits2_pos_shift (Z.to_nat (E - e)) q p); rewrite Z2Nat.id by lia; [lia|exact Hp]. }
    rewrite Hd, Hf. unfold shl_align.
    destruct (E - e) as [|k|k] eqn:Hk; try lia.
    rewrite <- Hk in Hp. now apply binary_round_aux_shift.
Qed.

Lemma int_exponent_range (p : positive) :
  Zpos p < 2 ^ 53 -> -52 <= int_exponent p <= 0.
Proof.
  intros H. unfold int_exponent, F64.prec.
  pose proof (digits2_pos_le p 53 ltac:(lia) H). lia.
Qed.

Lemma int_mantissa_eq (p : positive) :
  Zpos p < 2 ^ 53 -> Zpos (int_mantissa p) = Zpos p * 2 ^ (- int_exponent p).
Proof.
  intros H. unfold int_mantissa. rewrite Z2Pos.id; [reflexivity|].
  pose proof (int_exponent_range p H).
  apply Z.mul_pos_pos; [lia|apply Z.pow_pos_nonneg; lia].
Qed.

Lemma int_canonical (p : positive) :
  Zpos p < 2 ^ 53 -> canonical (int_mantissa p) (int_exponent p).
Proof.
  intros H. pose proof (int_exponent_range p H) as R.
  pose proof (int_mantissa_eq p H) as M.
  split; [|unfold F64.emax, F64.prec; lia].
  rewrite (digits2_pos_shift (Z.to_nat (- int_exponent p)) p (int_mantissa p))
    by (rewrite Z2Nat.id by lia; exact M).
  rewrite Z2Nat.id by lia.
  unfold fexp, emin, int_exponent, F64.prec, F64.emax in *. lia.
Qed.

Lemma binary_round_int (s : bool) (p : positive) :
  Zpos p < 2 ^ 53 ->
  binary_round F64.prec F64.emax s p 0
  = S754_finite s (int_mantissa p) (int_exponent p).
Proof.
  intros H. pose proof (int_exponent_range p H) as R.
  apply binary_round_exact; [|now apply int_canonical].
  left. split; [lia|]. rewrite Z.sub_0_l. now apply int_mantissa_eq.
Qed.

Lemma shl_align_fst (m : positive) (e e' : Z) :
  e' <= e -> Zpos (fst (shl_align m e e')) = Zpos m * 2 ^ (e - e').
Proof.
  intros H. unfold shl_align.
  destruct (e' - e) as [|k|k] eqn:Hk; try lia; cbn [fst].
  - replace (e - e') with 0 by lia. lia.
  - rewrite pos_iter_xO. f_equal. f_equal. lia.
Qed.

Lemma add_of_Z (a b : Z) :
  Z.abs a < 2 ^ 53 -> Z.abs b < 2 ^ 53 -> Z.abs (a + b) < 2 ^ 53 ->
  F64.add (F64.of_Z a) (F64.of_Z b) = F64.of_Z (a + b).
Proof.
  intros Ha Hb Hab.
  assert (Hz : forall z, z <> 0 -> Z.abs z < 2 ^ 53 ->
            exists s p, z = cond_Zopp s (Zpos p) /\ Zpos p < 2 ^ 53 /\
              F64.of_Z z = S754_finite s (int_mantissa p) (int_exponent p)).
  { intros [|p|p] Hne Hlt; [congruence| |].
    - exists false, p. repeat split; [exact Hlt|]. now apply binary_round_int.
    - exists true, p. repeat split; [exact Hlt|]. now apply (binary_round_int true). }
  destruct (Z.eq_dec a 0) as [->|Hna].
  { rewrite Z.add_0_l. destruct b; [reflexivity| |];
      unfold F64.of_Z, binary_normalize; rewrite binary_round_int by exact Hb; reflexivity. }
  destruct (Z.eq_dec b 0) as [->|Hnb].
  { rewrite Z.add_0_r. destruct a; [reflexivity| |];
      unfold F64.of_Z, binary_normalize; rewrite binary_round_int by exact Ha; reflexivity. }
  destruct (Hz a Hna Ha) as (sa & pa & Ea & Pa & Ra).
  destruct (Hz b Hnb Hb) as (sb & pb & Eb & Pb & Rb).
  rewrite Ra, Rb. unfold F64.add, SFadd.
  set (ez := Z.min (int_exponent pa) (int_exponent pb)).
  pose proof (int_exponent_range pa Pa) as Xa.
  pose proof (int_exponent_range pb Pb) as Xb.
  rewrite !shl_align_fst by (unfold ez; lia).
  rewrite !int_mantissa_eq by assumption.
  assert (HM : cond_Zopp sa (Zpos pa * 2 ^ (- int_exponent pa) * 2 ^ (int_exponent pa - ez))
             + cond_Zopp sb (Zpos pb * 2 ^ (- int_exponent pb) * 2 ^ (int_exponent pb - ez))
             = (a + b) * 2 ^ (- ez)).
  { rewrite <- !Z.mul_assoc, <- !Z.pow_add_r by (unfold ez; lia).
    replace (- int_exponent pa + (int_exponent pa - ez)) with (- ez) by lia.
    replace (- int_exponent pb + (int_exponent pb - ez)) with (- ez) by lia.
    rewrite Ea, Eb. destruct sa, sb; unfold cond_Zopp; ring. }
  rewrite HM. clear HM.
  destruct (Z.eq_dec (a + b) 0) as [->|Hnab]; [reflexivity|].
  destruct (Hz (a + b) Hnab Hab) as (sc & pc & Ec & Pc & Rc).
  rewrite Rc, Ec.
  pose proof (int_exponent_range pc Pc) as Xc.
  assert (Hpow : 0 < 2 ^ (- ez)) by (apply Z.pow_pos_nonneg; unfold ez; lia).
  assert (Hsplit : cond_Zopp sc (Zpos pc) * 2 ^ (- ez)
                   = cond_Zopp sc (Zpos (Z.to_pos (Zpos pc * 2 ^ (- ez))))).
  { rewrite Z2Pos.id by lia. destruct sc; unfold cond_Zopp; ring. }
  rewrite Hsplit.
  assert (Hround : binary_round F64.prec F64.emax sc (Z.to_pos (Zpos pc * 2 ^ (- ez))) ez
                   = S754_finite sc (int_mantissa pc) (int_exponent pc)).
  { apply binary_round_exact; [|now apply int_canonical].
    rewrite Z2Pos.id by lia. rewrite int_mantissa_eq by assumption.
    destruct (Z_le_gt_dec (int_exponent pc) ez) as [L|G].
    - left. split; [exact L|].
      rewrite <- Z.mul_assoc, <- Z.pow_add_r by (unfold ez in *; lia).
      f_equal. f_equal. lia.
    - right. split; [lia|].
      rewrite <- Z.mul_assoc, <- Z.pow_add_r by (unfold ez in *; lia).
      f_equal. f_equal. lia. }
  destruct sc; cbn [cond_Zopp Z.opp binary_normalize]; exact Hround.
Qed.

Lemma sub_add_opp (x y : float) : F64.sub x y = F64.add x (F64.opp y).
Proof.
  destruct x as [sx|sx| |sx mx ex], y as [sy|sy| |sy my ey];
    try reflexivity;
    destruct sx, sy; reflexivity.
Qed.

Lemma opp_binary_round (s : bool) (p : positive) (e : Z) :
  SFopp (binary_round F64.prec F64.emax s p e)
  = binary_round F64.prec F64.emax (negb s) p e.
Proof.
  unfold binary_round, binary_round_aux.
  destruct (shl_align _ _ _) as [mz ez].
  destruct (shr_fexp _ _ _ _ _) as [mrs' e'].
  destruct (shr_fexp _ _ _ _ _) as [mrs'' e''].
  destruct (shr_m mrs''); try reflexivity.
  destruct (e'' <=? _); reflexivity.
Qed.

Lemma opp_of_Z (b : Z) : b <> 0 -> F64.opp (F64.of_Z b) = F64.of_Z (- b).
Proof.
  destruct b as [|p|p]; intros H; [congruence| |];
    unfold F64.opp, F64.of_Z, binary_normalize; cbn [Z.opp];
    now rewrite opp_binary_round.
Qed.

Lemma sub_of_Z (a b : Z) :
  Z.abs a < 2 ^ 53 -> Z.abs b < 2 ^ 53 -> Z.abs (a - b) < 2 ^ 53 ->
  F64.sub (F64.of_Z a) (F64.of_Z b) = F64.of_Z (a - b).
Proof.
  intros Ha Hb Hab. destruct (Z.eq_dec b 0) as [->|Hnb].
  - rewrite Z.sub_0_r. destruct a; [reflexivity| |];
      unfold F64.of_Z, binary_normalize; rewrite binary_round_int by exact Ha; reflexivity.
  - rewrite sub_add_opp, opp_of_Z by exact Hnb.
    rewrite add_of_Z; [f_equal; lia|lia|lia|].
    replace (a + - b) with (a - b) by lia. exact Hab.
Qed.

(* ================================================================== *)
(** * Summation of whole-number amounts                                *)
(* ================================================================== *)

Lemma Zsum_nonneg (zs : list Z) : Forall (fun z => 0 <= z) zs -> 0 <= Zsum zs.
Proof. induction 1; simpl; lia. Qed.

Lemma Zsum_perm (zs zs' : list Z) : Permutation zs zs' -> Zsum zs = Zsum zs'.
Proof. induction 1; simpl; lia. Qed.

Lemma fold_add_ints (zs : list Z) : forall acc : Z,
  0 <= acc -> Forall (fun z => 0 <= z) zs -> acc + Zsum zs < 2 ^ 53 ->
  fold_left F64.add (map F64.of_Z zs) (F64.of_Z acc) = F64.of_Z (acc + Zsum zs).
Proof.
  induction zs as [|z zs IH]; intros acc Hacc Hzs Hlt; cbn [map fold_left].
  - simpl. f_equal. lia.
  - inversion Hzs as [|? ? Hz Hzs']; subst.
    change (Zsum (z :: zs)) with (z + Zsum zs) in Hlt.
    pose proof (Zsum_nonneg zs Hzs').
    rewrite add_of_Z by lia. rewrite IH by (assumption || lia).
    change (Zsum (z :: zs)) with (z + Zsum zs). f_equal. lia.
Qed.

Lemma neumaier_step_ints (acc z : Z) :
  0 <= acc -> 0 <= z -> acc + z < 2 ^ 53 ->
  neumaier_step (F64.of_Z acc, F64.zero) (F64.of_Z z)
  = (F64.of_Z (acc + z), F64.zero).
Proof.
  intros Hacc Hz Hlt. unfold neumaier_step.
  rewrite add_of_Z by lia.
  rewrite !sub_of_Z by lia.
  rewrite !add_of_Z by lia.
  replace (acc - (acc + z) + z) with 0 by lia.
  replace (z - (acc + z) + acc) with 0 by lia.
  now destruct (F64.geb _ _).
Qed.

Lemma fold_neumaier_ints (zs : list Z) : forall acc : Z,
  0 <= acc -> Forall (fun z => 0 <= z) zs -> acc + Zsum zs < 2 ^ 53 ->
  fold_left neumaier_step (map F64.of_Z zs) (F64.of_Z acc, F64.zero)
  = (F64.of_Z (acc + Zsum zs), F64.zero).
Proof.
  induction zs as [|z zs IH]; intros acc Hacc Hzs Hlt; cbn [map fold_left].
  - simpl. do 2 f_equal. lia.
  - inversion Hzs as [|? ? Hz Hzs']; subst.
    change (Zsum (z :: zs)) with (z + Zsum zs) in Hlt.
    pose proof (Zsum_nonneg zs Hzs').
    rewrite neumaier_step_ints by lia. rewrite IH by (assumption || lia).
    change (Zsum (z :: zs)) with (z + Zsum zs). do 2 f_equal. lia.
Qed.

(** On non-negative whole numbers whose total stays below [2^53] both
    summations return the mathematical sum. *)
Lemma pysum_ints (alg : summation) (zs : list Z) :
  Forall (fun z => 0 <= z) zs -> Zsum zs < 2 ^ 53 ->
  pysum alg (map F64.of_Z zs) = F64.of_Z (Zsum zs).
Proof.
  intros Hzs Hlt. destruct alg; unfold pysum.
  - unfold sum_left. change F64.zero with (F64.of_Z 0).
    now rewrite fold_add_ints.
  - destruct zs as [|z zs]; [reflexivity|].
    inversion Hzs as [|? ? Hz Hzs']; subst.
    change (Zsum (z :: zs)) with (z + Zsum zs) in Hlt.
    pose proof (Zsum_nonneg zs Hzs').
    unfold sum_compensated. cbn [map].
    change (F64.add F64.zero (F64.of_Z z)) with (F64.add (F64.of_Z 0) (F64.of_Z z)).
    rewrite add_of_Z by lia. rewrite Z.add_0_l.
    rewrite fold_neumaier_ints by (assumption || lia). reflexivity.
Qed.

Lemma filter_perm {A : Type} (f : A -> bool) (l l' : list A) :
  Permutation l l' -> Permutation (filter f l) (filter f l').
Proof.
  induction 1; simpl.
  - constructor.
  - destruct (f x); auto.
  - destruct (f x), (f y); auto using perm_swap.
  - eauto using perm_trans.
Qed.

Lemma insert_desc_perm {A : Type} (key : A -> Z) (x : A) (l : list A) :
  Permutation (insert_desc key x l) (x :: l).
Proof.
  induction l as [|y l IH]; simpl; [auto|].
  destruct (key y <=? key x); [auto|].
  rewrite IH. apply perm_swap.
Qed.

Lemma order_by_desc_perm {A : Type} (key : A -> Z) (l : list A) :
  Permutation (order_by_desc key l) l.
Proof.
  induction l as [|x l IH]; simpl; [auto|].
  rewrite insert_desc_perm. now constructor.
Qed.

(** A permutation of whole-number amounts is a list of whole-number amounts. *)
Lemma perm_ints (l' : list float) (zs : list Z) :
  Permutation (map F64.of_Z zs) l' ->
  exists zs', l' = map F64.of_Z zs' /\ Permutation zs zs'.
Proof.
  intros H. apply Permutation_sym in H.
  destruct (Permutation_map_inv _ _ H) as (zs' & -> & P).
  exists zs'. split; [reflexivity|now apply Permutation_sym].
Qed.

Lemma pysum_ints_perm (alg : summation) (l l' : list float) (zs : list Z) :
  l = map F64.of_Z zs -> Forall (fun z => 0 <= z) zs -> Zsum zs < 2 ^ 53 ->
  Permutation l l' -> pysum alg l' = pysum alg l.
Proof.
  intros -> Hzs Hlt P. destruct (perm_ints _ _ P) as (zs' & -> & Pz).
  pose proof (Zsum_perm _ _ Pz) as E.
  assert (Hzs' : Forall (fun z => 0 <= z) zs')
    by (eapply Permutation_Forall; eassumption).
  rewrite (pysum_ints alg zs Hzs Hlt).
  rewrite (pysum_ints alg zs' Hzs') by (rewrite <- E; exact Hlt).
  now rewrite E.
Qed.

(* ================================================================== *)
(** * The handlers, case by case                                       *)
(* ================================================================== *)

Section Handlers.

Variable float_of_str : string -> option float.
Variable alg : summation.

Lemma distribute_post (env : Env) (req : Request) (s : Store) (a : float) :
  req_method req = POST ->
  py_float float_of_str (get_form_data (req_form req) "amount" (PyInt 0)) = Ok a ->
  distribute float_of_str alg env req s =
  if F64.gtb a (current_balance alg s)
  then (s, Redirect (MsgExceeds a (current_balance alg s), error) EpDistribute)
  else if negb (all [ truthy_val (get_form_data (req_form req) "beneficiary_name" PyNone);
                      F64.truthy a;
                      truthy_val (get_form_data (req_form req) "category" PyNone);
                      truthy_val (get_form_data (req_form req) "purpose" PyNone) ])
  then (s, Redirect (MsgFillRequired, error) EpDistribute)
  else if commit_ok env
  then (add_distribution
          (Distribution.mk (next_id (distributions s))
             (get_form_data (req_form req) "beneficiary_name" PyNone) a
             (get_form_data (req_form req) "category" PyNone) (utcnow env)
             (get_form_data (req_form req) "purpose" PyNone) "completed"
             (get_form_data (req_form req) "payment_mode" (PyStr "cash"))) s,
        Redirect (MsgRecorded, success) EpIndex)
  else (s, Redirect (MsgDistributionError DatabaseError, error) EpDistribute).
Proof.
  intros Hm Ha. unfold distribute. rewrite Hm, Ha. reflexivity.
Qed.

Lemma donate_post (env : Env) (req : Request) (s : Store) (a : float) :
  req_method req = POST ->
  py_float float_of_str (get_form_data (req_form req) "amount" (PyInt 0)) = Ok a ->
  donate float_of_str env req s =
  if negb (all [ truthy_val (get_form_data (req_form req) "name" PyNone);
                 truthy_val (get_form_data (req_form req) "email" PyNone);
                 F64.truthy a;
                 truthy_val (get_form_data (req_form req) "category" PyNone) ])
  then (s, Redirect (MsgFillRequired, error) EpDonate)
  else if commit_ok env
  then (add_donor
          (Donor.mk (next_id (donors s))
             (get_form_data (req_form req) "name" PyNone)
             (get_form_data (req_form req) "email" PyNone) a
             (get_form_data (req_form req) "category" PyNone)
             (get_form_data (req_form req) "payment_method" (PyStr "upi"))
             "pending" (utcnow env)
             (get_form_data (req_form req) "message" (PyStr ""))) s,
        Redirect
          (if pyval_eqb_str (get_form_data (req_form req) "payment_method" (PyStr "upi")) "upi"
           then (MsgUPI, info)
           else if pyval_eqb_str (get_form_data (req_form req) "payment_method" (PyStr "upi")) "card"
           then (MsgCard, info) else (MsgNetBanking, info)) EpIndex)
  else (s, Redirect (MsgDonationError DatabaseError, error) EpDonate).
Proof.
  intros Hm Ha. unfold donate. rewrite Hm, Ha. reflexivity.
Qed.

(** An error response never comes with a write. *)
Lemma donate_error_no_write (env : Env) (req : Request) (s : Store) :
  is_error (snd (donate float_of_str env req s)) = true ->
  fst (donate float_of_str env req s) = s.
Proof.
  unfold donate. destruct (req_method req); [reflexivity|].
  destruct (py_float _ _); [|reflexivity]. cbv zeta.
  destruct (negb _); [reflexivity|].
  destruct (commit_ok env); [|reflexivity].
  cbn [snd fst]. repeat destruct (pyval_eqb_str _ _); discriminate.
Qed.

Lemma distribute_error_no_write (env : Env) (req : Request) (s : Store) :
  is_error (snd (distribute float_of_str alg env req s)) = true ->
  fst (distribute float_of_str alg env req s) = s.
Proof.
  unfold distribute. destruct (req_method req); [reflexivity|].
  destruct (py_float _ _); [|reflexivity]. cbv zeta.
  destruct (F64.gtb _ _); [reflexivity|].
  destruct (negb _); [reflexivity|].
  destruct (commit_ok env); [|reflexivity].
  discriminate.
Qed.

(** POST /distribute answers with the balance-exceeded error exactly when
    the amount is greater than the balance. *)
Lemma distribute_exceeded (env : Env) (req : Request) (s : Store) (a : float) :
  req_method req = POST ->
  py_float float_of_str (get_form_data (req_form req) "amount" (PyInt 0)) = Ok a ->
  balance_exceeded (snd (distribute float_of_str alg env req s))
  = F64.gtb a (current_balance alg s).
Proof.
  intros Hm Ha. rewrite (distribute_post env req s a Hm Ha).
  destruct (F64.gtb _ _); [reflexivity|].
  destruct (negb _); [reflexivity|].
  destruct (commit_ok env); reflexivity.
Qed.

End Handlers.

Section Guard.

Variable float_of_str : string -> option float.
Variable alg : summation.

(** C1.  For every list [D] of completed donations and [T] of completed
    distributions in the store and every proposed amount [a], POST
    /distribute answers with the balance-exceeded error if and only if
    [a > sum(D.amount) - sum(T.amount)]; the store is then left as it was.
    When [a] equals the balance the request passes the check (the test is a
    strict [>]), and with all fields filled in the distribution is stored. *)
Theorem distribute_guard_strict
    (env : Env) (req : Request) (s : Store) (a : float)
    (D : list Donor.t) (T : list Distribution.t) :
  req_method req = POST ->
  py_float float_of_str (get_form_data (req_form req) "amount" (PyInt 0)) = Ok a ->
  completed_donors (donors s) = D ->
  completed_distributions (distributions s) = T ->
  let balance :=
    F64.sub (pysum alg (map Donor.amount D)) (pysum alg (map Distribution.amount T)) in
  let outcome := distribute float_of_str alg env req s in
  (balance_exceeded (snd outcome) = true <-> F64.gtb a balance = true)
  /\ (F64.gtb a balance = true ->
      outcome = (s, Redirect (MsgExceeds a balance, error) EpDistribute))
  /\ (F64.eqb a balance = true ->
      balance_exceeded (snd outcome) = false
      /\ (all [ truthy_val (get_form_data (req_form req) "beneficiary_name" PyNone);
                F64.truthy a;
                truthy_val (get_form_data (req_form req) "category" PyNone);
                truthy_val (get_form_data (req_form req) "purpose" PyNone) ] = true ->
          commit_ok env = true ->
          snd outcome = Redirect (MsgRecorded, success) EpIndex
          /\ exists row, fst outcome = add_distribution row s
               /\ Distribution.amount row = a
               /\ Distribution.status row = "completed"%string)).
Proof.
  intros Hm Ha HD HT balance outcome.
  assert (Hb : balance = current_balance alg s).
  { unfold balance, current_balance, completed_total_donations,
      completed_total_distributions. now rewrite HD, HT. }
  pose proof (distribute_exceeded float_of_str alg env req s a Hm Ha) as X.
  pose proof (distribute_post float_of_str alg env req s a Hm Ha) as P.
  fold outcome in X, P. rewrite <- Hb in X, P.
  split; [now rewrite X|]. split.
  - intros G. now rewrite P, G.
  - intros E. pose proof (eqb_not_gtb _ _ E) as G. split; [now rewrite X|].
    intros Hall Hc. rewrite P, G, Hall, Hc. cbn [negb fst snd].
    split; [reflexivity|]. eexists. repeat split.
Qed.

(** C6.  When the proposed amount strictly exceeds the completed-only
    balance, POST /distribute answers with the balance-exceeded error and
    writes nothing: both tables are exactly as before the request. *)
Theorem rejected_distribution_no_write
    (env : Env) (req : Request) (s : Store) (a : float) :
  req_method req = POST ->
  py_float float_of_str (get_form_data (req_form req) "amount" (PyInt 0)) = Ok a ->
  F64.gtb a (current_balance alg s) = true ->
  distribute float_of_str alg env req s
    = (s, Redirect (MsgExceeds a (current_balance alg s), error) EpDistribute)
  /\ donors (fst (distribute float_of_str alg env req s)) = donors s
  /\ distributions (fst (distribute float_of_str alg env req s)) = distributions s.
Proof.
  intros Hm Ha G.
  rewrite (distribute_post float_of_str alg env req s a Hm Ha), G.
  repeat split.
Qed.

(** C10.  In POST /distribute the balance check runs before the
    required-field check: a request whose amount strictly exceeds the
    completed-only balance and which also lacks [beneficiary_name],
    [category] or [purpose] gets the balance-exceeded error, not the
    missing-fields error, and nothing is stored. *)
Theorem distribute_guard_before_required_fields
    (env : Env) (req : Request) (s : Store) (a : float) :
  req_method req = POST ->
  py_float float_of_str (get_form_data (req_form req) "amount" (PyInt 0)) = Ok a ->
  F64.gtb a (current_balance alg s) = true ->
  blank (req_form req) "beneficiary_name" \/ blank (req_form req) "category"
    \/ blank (req_form req) "purpose" ->
  snd (distribute float_of_str alg env req s)
    = Redirect (MsgExceeds a (current_balance alg s), error) EpDistribute
  /\ snd (distribute float_of_str alg env req s)
    <> Redirect (MsgFillRequired, error) EpDistribute
  /\ fst (distribute float_of_str alg env req s) = s.
Proof.
  intros Hm Ha G _.
  rewrite (distribute_post float_of_str alg env req s a Hm Ha), G.
  repeat split. discriminate.
Qed.

(** C9.  In POST /donate an amount that is absent (the default [0] is
    used) or that parses to zero fails the truthiness test on the required
    fields: the answer is the missing-fields error and nothing is stored. *)
Theorem donate_zero_amount_rejected
    (env : Env) (req : Request) (s : Store) :
  req_method req = POST ->
  form_get (req_form req) "amount" = None
    \/ (exists t x, form_get (req_form req) "amount" = Some t
          /\ float_of_str t = Some x /\ F64.eqb x F64.zero = true) ->
  donate float_of_str env req s = (s, Redirect (MsgFillRequired, error) EpDonate).
Proof.
  intros Hm H.
  assert (exists x, py_float float_of_str (get_form_data (req_form req) "amount" (PyInt 0)) = Ok x
                    /\ F64.truthy x = false) as (x & Hx & Tx).
  { unfold get_form_data. destruct H as [->|(t & x & -> & Hp & Hz)].
    - exists (F64.of_Z 0). split; reflexivity.
    - exists x. cbn [py_float]. rewrite Hp. split; [reflexivity|].
      unfold F64.truthy. now rewrite Hz. }
  rewrite (donate_post float_of_str env req s x Hm Hx), Tx.
  cbn [all forallb]. rewrite !andb_false_r. reflexivity.
Qed.

End Guard.

Section Validation.

Variable float_of_str : string -> option float.
Variable alg : summation.

Lemma blank_falsy (form : Form) (field : string) :
  blank form field -> truthy_val (get_form_data form field PyNone) = false.
Proof. unfold get_form_data. intros [-> | ->]; reflexivity. Qed.

(** What [float] makes of an amount field that is missing, empty or not a
    number: the falsy [0.0], or an exception. *)
Lemma bad_amount (form : Form) :
  float_of_str "" = None ->
  blank form "amount"
    \/ (exists t, form_get form "amount" = Some t /\ float_of_str t = None) ->
  py_float float_of_str (get_form_data form "amount" (PyInt 0)) = Ok F64.zero
  \/ py_float float_of_str (get_form_data form "amount" (PyInt 0)) = Raise ValueError.
Proof.
  intros He. unfold get_form_data.
  intros [[-> | ->] | (t & -> & Ht)]; cbn [py_float].
  - left. reflexivity.
  - right. now rewrite He.
  - right. now rewrite Ht.
Qed.

(** C7.  A POST /donate whose [name], [email], [amount] or [category] is
    missing or empty, or whose amount is not a number, and a POST
    /distribute whose [beneficiary_name], [amount], [category] or [purpose]
    is missing or empty, or whose amount is not a number, is answered with
    an error message and stores nothing. *)
Theorem invalid_submission_no_write (env : Env) (req : Request) (s : Store) :
  float_of_str "" = None ->
  req_method req = POST ->
  (blank (req_form req) "name" \/ blank (req_form req) "email"
     \/ blank (req_form req) "category"
     \/ blank (req_form req) "amount"
     \/ (exists t, form_get (req_form req) "amount" = Some t /\ float_of_str t = None) ->
   is_error (snd (donate float_of_str env req s)) = true
   /\ fst (donate float_of_str env req s) = s)
  /\
  (blank (req_form req) "beneficiary_name" \/ blank (req_form req) "category"
     \/ blank (req_form req) "purpose"
     \/ blank (req_form req) "amount"
     \/ (exists t, form_get (req_form req) "amount" = Some t /\ float_of_str t = None) ->
   is_error (snd (distribute float_of_str alg env req s)) = true
   /\ fst (distribute float_of_str alg env req s) = s).
Proof.
  intros He Hm. split; intros H.
  - assert (E : is_error (snd (donate float_of_str env req s)) = true).
    { unfold donate. rewrite Hm.
      destruct (py_float float_of_str (get_form_data (req_form req) "amount" (PyInt 0)))
        as [a|e] eqn:Ha; [|reflexivity].
      cbv zeta. cbn [Donor.name Donor.email Donor.amount Donor.category all forallb].
      destruct H as [B|[B|[B|B]]];
        try (rewrite (blank_falsy _ _ B), ?andb_false_r; reflexivity).
      destruct (bad_amount _ He B) as [Hz|Hr]; rewrite Ha in *; [|discriminate].
      injection Hz as ->. cbn [F64.truthy]. rewrite ?andb_false_r. reflexivity. }
    split; [exact E|now apply donate_error_no_write].
  - assert (E : is_error (snd (distribute float_of_str alg env req s)) = true).
    { unfold distribute. rewrite Hm.
      destruct (py_float float_of_str (get_form_data (req_form req) "amount" (PyInt 0)))
        as [a|e] eqn:Ha; [|reflexivity].
      cbv zeta. destruct (F64.gtb _ _); [reflexivity|].
      cbn [Distribution.beneficiary_name Distribution.amount Distribution.category
           Distribution.purpose all forallb].
      destruct H as [B|[B|[B|B]]];
        try (rewrite (blank_falsy _ _ B), ?andb_false_r; reflexivity).
      destruct (bad_amount _ He B) as [Hz|Hr]; rewrite Ha in *; [|discriminate].
      injection Hz as ->. cbn [F64.truthy]. rewrite ?andb_false_r. reflexivity. }
    split; [exact E|now apply distribute_error_no_write].
Qed.

(** The handlers keep the two status invariants. *)
Lemma handle_statuses (r : route) (env : Env) (req : Request) (s : Store) :
  Forall (fun d => Donor.payment_status d = "pending"%string) (donors s) ->
  Forall (fun d => Distribution.status d = "completed"%string) (distributions s) ->
  Forall (fun d => Donor.payment_status d = "pending"%string)
    (donors (fst (handle float_of_str alg r env req s)))
  /\ Forall (fun d => Distribution.status d = "completed"%string)
    (distributions (fst (handle float_of_str alg r env req s))).
Proof.
  intros Hd Ht. destruct r; unfold handle.
  - destruct (req_method req); split; assumption.
  - unfold donate. destruct (req_method req); [split; assumption|].
    destruct (py_float _ _); [|split; assumption]. cbv zeta.
    destruct (negb _); [split; assumption|].
    destruct (commit_ok env); [|split; assumption].
    cbn [fst add_donor donors distributions]. split; [|assumption].
    apply Forall_app. split; [assumption|]. repeat constructor.
  - unfold distribute. destruct (req_method req); [split; assumption|].
    destruct (py_float _ _); [|split; assumption]. cbv zeta.
    destruct (F64.gtb _ _); [split; assumption|].
    destruct (negb _); [split; assumption|].
    destruct (commit_ok env); [|split; assumption].
    cbn [fst add_distribution donors distributions]. split; [assumption|].
    apply Forall_app. split; [assumption|]. repeat constructor.
  - destruct (req_method req); split; assumption.
Qed.

Lemma pending_not_completed (rows : list Donor.t) :
  Forall (fun d => Donor.payment_status d = "pending"%string) rows ->
  completed_donors rows = [].
Proof.
  induction 1 as [|d rows Hd _ IH]; [reflexivity|].
  unfold completed_donors in *. cbn [filter]. now rewrite Hd, IH.
Qed.

Lemma pysum_nil : pysum alg [] = F64.zero.
Proof. now destruct alg. Qed.

(** C3.  In every store that the application can reach from empty tables,
    every donation has [payment_status = "pending"] and every distribution
    has [status = "completed"]; hence no donation passes the completed-only
    filter, and the donation total that the balance check and GET
    /api/stats compute is [0]. *)
Theorem reachable_statuses (s : Store) :
  reachable float_of_str alg s ->
  Forall (fun d => Donor.payment_status d = "pending"%string) (donors s)
  /\ Forall (fun d => Distribution.status d = "completed"%string) (distributions s)
  /\ completed_donors (donors s) = []
  /\ completed_total_donations alg s = F64.zero
  /\ current_balance alg s = F64.sub F64.zero (completed_total_distributions alg s)
  /\ forall env req,
       snd (get_stats alg env req s)
       = Json (mkStats F64.zero (completed_total_distributions alg s)
                 (F64.sub F64.zero (completed_total_distributions alg s))).
Proof.
  intros R.
  assert (I : Forall (fun d => Donor.payment_status d = "pending"%string) (donors s)
              /\ Forall (fun d => Distribution.status d = "completed"%string)
                   (distributions s)).
  { induction R as [|s r env req _ [IHd IHt]].
    - split; constructor.
    - now apply handle_statuses. }
  destruct I as [Hd Ht].
  pose proof (pending_not_completed _ Hd) as Hn.
  assert (Hz : completed_total_donations alg s = F64.zero).
  { unfold completed_total_donations. rewrite Hn. apply pysum_nil. }
  repeat split; try assumption.
  - unfold current_balance. now rewrite Hz.
  - intros env req. unfold get_stats. cbv zeta. cbn [snd].
    fold (completed_total_donations alg s). fold (completed_total_distributions alg s).
    now rewrite Hz.
Qed.


End Validation.

(* ================================================================== *)
(** * The category breakdown                                           *)
(* ================================================================== *)

Lemma dict_get_update_same (d : Categories) (k : string) (f : Bucket -> Bucket) (b : Bucket) :
  dict_get d k = Some b -> dict_get (dict_update d k f) k = Some (f b).
Proof.
  induction d as [|[k' b'] d IH]; simpl; [discriminate|].
  destruct (String.eqb k' k) eqn:E; simpl; rewrite E.
  - now intros [= ->].
  - exact IH.
Qed.

Lemma dict_get_update_other (d : Categories) (k k' : string) (f : Bucket -> Bucket) :
  k <> k' -> dict_get (dict_update d k' f) k = dict_get d k.
Proof.
  intros N. induction d as [|[k0 b0] d IH]; simpl; [reflexivity|].
  destruct (String.eqb k0 k') eqn:E; simpl.
  - apply String.eqb_eq in E. subst k0.
    destruct (String.eqb k' k) eqn:E'; [|reflexivity].
    apply String.eqb_eq in E'. congruence.
  - destruct (String.eqb k0 k); [reflexivity|exact IH].
Qed.

Lemma dict_update_keys (d : Categories) (k : string) (f : Bucket -> Bucket) :
  map fst (dict_update d k f) = map fst d.
Proof.
  induction d as [|[k' b'] d IH]; simpl; [reflexivity|].
  destruct (String.eqb k' k); simpl; [reflexivity|now rewrite IH].
Qed.

(** One pass of the first loop, seen from the bucket of category [c]. *)
Lemma count_donation_get (cats : Categories) (d : Donor.t) (c : string) (b : Bucket) :
  dict_get cats c = Some b ->
  dict_get (count_donation cats d) c
  = Some (if pyval_eqb_str (Donor.category d) c
          then add_to_donations (Donor.amount d) b else b).
Proof.
  intros G. unfold count_donation, dict_mem.
  destruct (Donor.category d) as [|k|n]; simpl; try exact G.
  destruct (String.eqb k c) eqn:E.
  - apply String.eqb_eq in E. subst k. rewrite G.
    now apply dict_get_update_same.
  - assert (c <> k) by (intros ->; rewrite String.eqb_refl in E; discriminate).
    destruct (dict_get cats k); [|exact G].
    now rewrite dict_get_update_other.
Qed.

Lemma count_distribution_get (cats : Categories) (d : Distribution.t) (c : string) (b : Bucket) :
  dict_get cats c = Some b ->
  dict_get (count_distribution cats d) c
  = Some (if pyval_eqb_str (Distribution.category d) c
          then add_to_distributions (Distribution.amount d) b else b).
Proof.
  intros G. unfold count_distribution, dict_mem.
  destruct (Distribution.category d) as [|k|n]; simpl; try exact G.
  destruct (String.eqb k c) eqn:E.
  - apply String.eqb_eq in E. subst k. rewrite G.
    now apply dict_get_update_same.
  - assert (c <> k) by (intros ->; rewrite String.eqb_refl in E; discriminate).
    destruct (dict_get cats k); [|exact G].
    now rewrite dict_get_update_other.
Qed.

Lemma fold_count_donation_get (ds : list Donor.t) : forall (cats : Categories) (c : string) (b : Bucket),
  dict_get cats c = Some b ->
  dict_get (fold_left count_donation ds cats) c
  = Some (mkBucket
            (fold_left F64.add (map Donor.amount (donations_in c ds)) (bucket_donations b))
            (bucket_distributions b)).
Proof.
  induction ds as [|d ds IH]; intros cats c b G; cbn [fold_left].
  - destruct b; exact G.
  - rewrite (IH _ c _ (count_donation_get cats d c b G)).
    unfold donations_in. cbn [filter].
    destruct (pyval_eqb_str (Donor.category d) c); reflexivity.
Qed.

Lemma fold_count_distribution_get (ts : list Distribution.t) : forall (cats : Categories) (c : string) (b : Bucket),
  dict_get cats c = Some b ->
  dict_get (fold_left count_distribution ts cats) c
  = Some (mkBucket
            (bucket_donations b)
            (fold_left F64.add (map Distribution.amount (distributions_in c ts))
               (bucket_distributions b))).
Proof.
  induction ts as [|d ts IH]; intros cats c b G; cbn [fold_left].
  - destruct b; exact G.
  - rewrite (IH _ c _ (count_distribution_get cats d c b G)).
    unfold distributions_in. cbn [filter].
    destruct (pyval_eqb_str (Distribution.category d) c); reflexivity.
Qed.

Lemma count_donation_keys (cats : Categories) (d : Donor.t) :
  map fst (count_donation cats d) = map fst cats.
Proof.
  unfold count_donation. destruct (dict_mem _ _); [apply dict_update_keys|reflexivity].
Qed.

Lemma count_distribution_keys (cats : Categories) (d : Distribution.t) :
  map fst (count_distribution cats d) = map fst cats.
Proof.
  unfold count_distribution. destruct (dict_mem _ _); [apply dict_update_keys|reflexivity].
Qed.

Lemma fold_count_donation_keys (ds : list Donor.t) : forall cats : Categories,
  map fst (fold_left count_donation ds cats) = map fst cats.
Proof.
  induction ds as [|d ds IH]; intros cats; cbn [fold_left]; [reflexivity|].
  now rewrite IH, count_donation_keys.
Qed.

Lemma fold_count_distribution_keys (ts : list Distribution.t) : forall cats : Categories,
  map fst (fold_left count_distribution ts cats) = map fst cats.
Proof.
  induction ts as [|d ts IH]; intros cats; cbn [fold_left]; [reflexivity|].
  now rewrite IH, count_distribution_keys.
Qed.

Lemma initial_categories_get (c : string) :
  In c category_keys -> dict_get initial_categories c = Some empty_bucket.
Proof.
  cbn. intros [<-|[<-|[<-|[<-|[<-|[]]]]]]; reflexivity.
Qed.

Lemma dict_get_keys (d : Categories) (k : string) :
  dict_get d k <> None <-> In k (map fst d).
Proof.
  induction d as [|[k' b] d IH]; simpl; [tauto|].
  destruct (String.eqb k' k) eqn:E.
  - apply String.eqb_eq in E. split; [auto|discriminate].
  - rewrite IH. split; [auto|]. intros [->|H]; [|exact H].
    rewrite String.eqb_refl in E. discriminate.
Qed.

(** A row whose category is none of the keys leaves the dictionary as it
    is. *)
Lemma unrecognized_not_mem (cats : Categories) (category : pyval) :
  map fst cats = category_keys -> unrecognized category -> dict_mem category cats = false.
Proof.
  intros K U. unfold dict_mem. destruct category as [|k|n]; try reflexivity.
  destruct (dict_get cats k) eqn:G; [|reflexivity].
  assert (I : In k category_keys) by (rewrite <- K; apply dict_get_keys; congruence).
  specialize (U k I). simpl in U. rewrite String.eqb_refl in U. discriminate.
Qed.

Lemma count_donation_skip (cats : Categories) (r : Donor.t) :
  map fst cats = category_keys -> unrecognized (Donor.category r) ->
  count_donation cats r = cats.
Proof.
  intros K U. unfold count_donation. now rewrite (unrecognized_not_mem cats _ K U).
Qed.

Lemma count_distribution_skip (cats : Categories) (r : Distribution.t) :
  map fst cats = category_keys -> unrecognized (Distribution.category r) ->
  count_distribution cats r = cats.
Proof.
  intros K U. unfold count_distribution. now rewrite (unrecognized_not_mem cats _ K U).
Qed.

Lemma fold_count_donation_skip (l1 l2 : list Donor.t) (r : Donor.t) (cats : Categories) :
  map fst cats = category_keys -> unrecognized (Donor.category r) ->
  fold_left count_donation (l1 ++ r :: l2) cats = fold_left count_donation (l1 ++ l2) cats.
Proof.
  intros K U. rewrite !fold_left_app. cbn [fold_left]. f_equal.
  apply count_donation_skip; [|exact U].
  now rewrite fold_count_donation_keys.
Qed.

Lemma fold_count_distribution_skip (l1 l2 : list Distribution.t) (r : Distribution.t) (cats : Categories) :
  map fst cats = category_keys -> unrecognized (Distribution.category r) ->
  fold_left count_distribution (l1 ++ r :: l2) cats
  = fold_left count_distribution (l1 ++ l2) cats.
Proof.
  intros K U. rewrite !fold_left_app. cbn [fold_left]. f_equal.
  apply count_distribution_skip; [|exact U].
  now rewrite fold_count_distribution_keys.
Qed.

Section Breakdown.

Variable alg : summation.

(** C5.  For each of the five category keys [c], [categories[c].donations]
    is the float sum, accumulated in row order from [0.0], of the amounts of
    exactly the donations whose category is [c], and likewise
    [categories[c].distributions]; the dictionary has these five keys and no
    other.  A row whose category is none of the five changes no bucket, yet
    its amount is among those summed into [total_donations] (respectively
    [total_distributions]), which range over every row, and so enters the
    balance. *)
Theorem category_breakdown (donations : list Donor.t) (distributions : list Distribution.t) :
  let ctx := summarize alg donations distributions in
  (forall c, In c category_keys ->
     dict_get (ctx_categories ctx) c
     = Some (mkBucket (sum_left (map Donor.amount (donations_in c donations)))
                      (sum_left (map Distribution.amount (distributions_in c distributions)))))
  /\ map fst (ctx_categories ctx) = category_keys
  /\ category_keys = ["education"; "healthcare"; "food"; "shelter"; "emergency"]%string
  /\ (forall l1 r l2, donations = l1 ++ r :: l2 -> unrecognized (Donor.category r) ->
        ctx_categories ctx = ctx_categories (summarize alg (l1 ++ l2) distributions)
        /\ ctx_total_donations ctx
           = pysum alg (map Donor.amount l1 ++ Donor.amount r :: map Donor.amount l2))
  /\ (forall l1 r l2, distributions = l1 ++ r :: l2 -> unrecognized (Distribution.category r) ->
        ctx_categories ctx = ctx_categories (summarize alg donations (l1 ++ l2))
        /\ ctx_total_distributions ctx
           = pysum alg (map Distribution.amount l1 ++ Distribution.amount r
                          :: map Distribution.amount l2))
  /\ ctx_total_donations ctx = pysum alg (map Donor.amount donations)
  /\ ctx_total_distributions ctx = pysum alg (map Distribution.amount distributions)
  /\ ctx_balance ctx = F64.sub (ctx_total_donations ctx) (ctx_total_distributions ctx).
Proof.
  intros ctx. unfold ctx, summarize. cbn [ctx_categories ctx_total_donations
    ctx_total_distributions ctx_balance].
  repeat split.
  - intros c I.
    rewrite (fold_count_distribution_get distributions _ c _
               (fold_count_donation_get donations _ c _ (initial_categories_get c I))).
    reflexivity.
  - now rewrite fold_count_distribution_keys, fold_count_donation_keys.
  - subst donations. now rewrite fold_count_donation_skip.
  - subst donations. now rewrite map_app.
  - subst distributions. rewrite fold_count_distribution_skip; [reflexivity| |assumption].
    now rewrite fold_count_donation_keys.
  - subst distributions. now rewrite map_app.
Qed.

End Breakdown.

(* ================================================================== *)
(** * Balance and ordering                                             *)
(* ================================================================== *)

Lemma whole_amounts_pysum (alg : summation) (amounts : list float) (zs : list Z) :
  whole_amounts amounts zs ->
  pysum alg amounts = F64.of_Z (Zsum zs) /\ 0 <= Zsum zs < 2 ^ 53.
Proof.
  intros (-> & Hz & Hlt). split; [now apply pysum_ints|].
  split; [now apply Zsum_nonneg|exact Hlt].
Qed.

Lemma whole_amounts_perm (alg : summation) (amounts amounts' : list float) (zs : list Z) :
  whole_amounts amounts zs -> Permutation amounts amounts' ->
  pysum alg amounts' = pysum alg amounts.
Proof.
  intros (E & Hz & Hlt) P. now apply (pysum_ints_perm alg amounts amounts' zs).
Qed.

Lemma completed_donors_all (rows : list Donor.t) :
  Forall (fun d => Donor.payment_status d = "completed"%string) rows ->
  completed_donors rows = rows.
Proof.
  induction 1 as [|d rows Hd _ IH]; [reflexivity|].
  unfold completed_donors in *. cbn [filter]. now rewrite Hd, IH.
Qed.

Lemma completed_distributions_all (rows : list Distribution.t) :
  Forall (fun d => Distribution.status d = "completed"%string) rows ->
  completed_distributions rows = rows.
Proof.
  induction 1 as [|d rows Hd _ IH]; [reflexivity|].
  unfold completed_distributions in *. cbn [filter]. now rewrite Hd, IH.
Qed.

Section Balance.

Variable alg : summation.

Lemma get_stats_totals (env : Env) (req : Request) (s : Store) :
  get_stats alg env req s
  = (s, Json (mkStats (completed_total_donations alg s)
                (completed_total_distributions alg s) (current_balance alg s))).
Proof. reflexivity. Qed.

Lemma current_balance_whole (s : Store) (zd zt : list Z) :
  whole_amounts (map Donor.amount (completed_donors (donors s))) zd ->
  whole_amounts (map Distribution.amount (completed_distributions (distributions s))) zt ->
  completed_total_donations alg s = F64.of_Z (Zsum zd)
  /\ completed_total_distributions alg s = F64.of_Z (Zsum zt)
  /\ current_balance alg s = F64.of_Z (Zsum zd - Zsum zt).
Proof.
  intros Hd Ht.
  destruct (whole_amounts_pysum alg _ _ Hd) as [Ed Rd].
  destruct (whole_amounts_pysum alg _ _ Ht) as [Et Rt].
  unfold current_balance, completed_total_donations, completed_total_distributions.
  rewrite Ed, Et. repeat split. apply sub_of_Z; lia.
Qed.

(** C2, as the code has it.  The balance check and GET /api/stats compute
    the same balance: the float sum of the completed donations minus the
    float sum of the completed distributions, each taken in table order.
    When the amounts are non-negative whole numbers and each total is below
    [2^53], no addition rounds: the balance is exactly the mathematical
    value, and every table that holds the same completed amounts in another
    order gives the same balance. *)
Theorem completed_balance_whole_amounts (s : Store) :
  current_balance alg s
  = F64.sub (pysum alg (map Donor.amount (completed_donors (donors s))))
            (pysum alg (map Distribution.amount (completed_distributions (distributions s))))
  /\ (forall env req,
        response_totals (snd (get_stats alg env req s))
        = Some (completed_total_donations alg s, completed_total_distributions alg s,
                current_balance alg s))
  /\ (forall float_of_str env req a,
        req_method req = POST ->
        py_float float_of_str (get_form_data (req_form req) "amount" (PyInt 0)) = Ok a ->
        balance_exceeded (snd (distribute float_of_str alg env req s))
        = F64.gtb a (current_balance alg s))
  /\ (forall zd zt,
        whole_amounts (map Donor.amount (completed_donors (donors s))) zd ->
        whole_amounts (map Distribution.amount (completed_distributions (distributions s))) zt ->
        current_balance alg s = F64.of_Z (Zsum zd - Zsum zt)
        /\ forall s',
             Permutation (map Donor.amount (completed_donors (donors s)))
                         (map Donor.amount (completed_donors (donors s'))) ->
             Permutation
               (map Distribution.amount (completed_distributions (distributions s)))
               (map Distribution.amount (completed_distributions (distributions s'))) ->
             current_balance alg s' = current_balance alg s
             /\ forall env req,
                  snd (get_stats alg env req s') = snd (get_stats alg env req s)).
Proof.
  split; [reflexivity|]. split; [reflexivity|].
  split; [intros; now apply distribute_exceeded|].
  intros zd zt Hd Ht.
  destruct (current_balance_whole s zd zt Hd Ht) as (Ed & Et & Eb).
  split; [exact Eb|]. intros s' Pd Pt.
  assert (Xd : completed_total_donations alg s' = completed_total_donations alg s).
  { unfold completed_total_donations.
    exact (whole_amounts_perm alg _ _ zd Hd Pd). }
  assert (Xt : completed_total_distributions alg s' = completed_total_distributions alg s).
  { unfold completed_total_distributions.
    exact (whole_amounts_perm alg _ _ zt Ht Pt). }
  assert (Xb : current_balance alg s' = current_balance alg s).
  { unfold current_balance. now rewrite Xd, Xt. }
  split; [exact Xb|]. intros env req.
  rewrite !get_stats_totals. cbn [snd]. now rewrite Xd, Xt, Xb.
Qed.

(** C4, as the code has it.  GET / totals every donation and every
    distribution, whatever its status, in date-descending order, and builds
    the category breakdown from the same rows; GET /api/stats totals only
    the rows whose status is ["completed"], in table order.  When every row
    is completed the filter keeps every row, so both views total the same
    rows; their figures are identical when the amounts are non-negative
    whole numbers with totals below [2^53], or when the date-descending
    order is the table order.  With a pending row the views can differ. *)
Theorem home_all_rows_stats_completed_only (env : Env) (req : Request) (s : Store) :
  (exists ctx,
     snd (index alg env req s) = RenderIndex ctx
     /\ Permutation (ctx_donations ctx) (donors s)
     /\ Permutation (ctx_distributions ctx) (distributions s)
     /\ ctx_total_donations ctx = pysum alg (map Donor.amount (ctx_donations ctx))
     /\ ctx_total_distributions ctx
        = pysum alg (map Distribution.amount (ctx_distributions ctx))
     /\ ctx_balance ctx = F64.sub (ctx_total_donations ctx) (ctx_total_distributions ctx)
     /\ ctx_categories ctx
        = fold_left count_distribution (ctx_distributions ctx)
            (fold_left count_donation (ctx_donations ctx) initial_categories))
  /\ snd (get_stats alg env req s)
     = Json (mkStats
               (pysum alg (map Donor.amount (completed_donors (donors s))))
               (pysum alg (map Distribution.amount
                             (completed_distributions (distributions s))))
               (F64.sub
                  (pysum alg (map Donor.amount (completed_donors (donors s))))
                  (pysum alg (map Distribution.amount
                                (completed_distributions (distributions s))))))
  /\ (every_row_completed s ->
      completed_donors (donors s) = donors s
      /\ completed_distributions (distributions s) = distributions s
      /\ (forall zd zt,
            whole_amounts (map Donor.amount (donors s)) zd ->
            whole_amounts (map Distribution.amount (distributions s)) zt ->
            response_totals (snd (index alg env req s))
            = response_totals (snd (get_stats alg env req s)))
      /\ (order_by_desc Donor.date (donors s) = donors s ->
          order_by_desc Distribution.date (distributions s) = distributions s ->
          response_totals (snd (index alg env req s))
          = response_totals (snd (get_stats alg env req s))))
  /\ (~ every_row_completed pending_store
      /\ response_totals (snd (index alg env req pending_store))
         <> response_totals (snd (get_stats alg env req pending_store))).
Proof.
  split; [|split; [reflexivity|split]].
  - eexists. split; [reflexivity|]. cbn [summarize ctx_donations ctx_distributions
      ctx_total_donations ctx_total_distributions ctx_balance ctx_categories].
    repeat split; apply order_by_desc_perm.
  - intros [Cd Ct].
    pose proof (completed_donors_all _ Cd) as Fd.
    pose proof (completed_distributions_all _ Ct) as Ft.
    split; [exact Fd|]. split; [exact Ft|]. split.
    + intros zd zt Hd Ht.
      unfold index, get_stats, summarize. cbn [snd response_totals ctx_total_donations
        ctx_total_distributions ctx_balance stats_total_donations
        stats_total_distributions stats_balance].
      rewrite Fd, Ft.
      rewrite (whole_amounts_perm alg _ (map Donor.amount (order_by_desc Donor.date (donors s))) zd Hd)
        by (apply Permutation_map, Permutation_sym, order_by_desc_perm).
      rewrite (whole_amounts_perm alg _
                 (map Distribution.amount (order_by_desc Distribution.date (distributions s))) zt Ht)
        by (apply Permutation_map, Permutation_sym, order_by_desc_perm).
      reflexivity.
    + intros Od Ot.
      unfold index, get_stats, summarize. cbn [snd response_totals ctx_total_donations
        ctx_total_distributions ctx_balance stats_total_donations
        stats_total_distributions stats_balance].
      now rewrite Fd, Ft, Od, Ot.
  - split.
    + intros [Cd _]. inversion Cd as [|? ? H _]. discriminate H.
    + destruct alg; vm_compute; discriminate.
Qed.

End Balance.

(** C2 as stated fails.  Two tables of four completed donations with the
    keys 1, 2, 3, 4: in the first the amounts are [2^106], [2^53], [1],
    [1], in the second the same amounts in the opposite order.  The first
    balance is [2^106], the second [2^106 + 2^54], under both
    summations. *)
Lemma balance_depends_on_row_order :
  map Donor.id (donors store_in_order) = [1; 2; 3; 4]
  /\ map Donor.id (donors store_reordered) = [1; 2; 3; 4]
  /\ every_row_completed store_in_order
  /\ every_row_completed store_reordered
  /\ Permutation (map Donor.amount (completed_donors (donors store_in_order)))
                 (map Donor.amount (completed_donors (donors store_reordered)))
  /\ distributions store_in_order = distributions store_reordered
  /\ forall alg,
       current_balance alg store_in_order <> current_balance alg store_reordered
       /\ forall env req,
            snd (get_stats alg env req store_in_order)
            <> snd (get_stats alg env req store_reordered).
Proof.
  split; [reflexivity|]. split; [reflexivity|].
  split; [split; repeat constructor|]. split; [split; repeat constructor|].
  split; [|split; [reflexivity|]].
  - vm_compute.
    match goal with |- Permutation ?l _ => exact (Permutation_rev l) end.
  - intros alg. split.
    + destruct alg; vm_compute; discriminate.
    + intros env req. rewrite !get_stats_totals. cbn [snd].
      destruct alg; vm_compute; discriminate.
Qed.

(** C4 as stated fails: with the four distributions [2^106], [2^53], [1],
    [1], all completed and stored in this order, GET / adds them newest
    first and reports [2^106 + 2^54], GET /api/stats adds them in table
    order and reports [2^106], under both summations. *)
Lemma views_disagree_on_completed_rows :
  every_row_completed store_dated
  /\ forall alg env req,
       response_totals (snd (index alg env req store_dated))
       <> response_totals (snd (get_stats alg env req store_dated)).
Proof.
  split.
  - split; [constructor|]. repeat constructor.
  - intros alg env req. destruct alg; vm_compute; discriminate.
Qed.

(* ================================================================== *)
(** * Worked examples                                                  *)
(* ================================================================== *)

(** The balance is 1000: proposing 1000 is accepted and stored, proposing
    1000.01 is rejected. *)
Lemma distribute_guard_strict_witness :
  F64.eqb (F64.of_Z 1000) (current_balance LeftToRight scenario_store) = true
  /\ snd (distribute sample_float_of_str LeftToRight sample_env
            (post (distribution_form "1000")) scenario_store)
     = Redirect (MsgRecorded, success) EpIndex
  /\ balance_exceeded
       (snd (distribute sample_float_of_str LeftToRight sample_env
               (post (distribution_form "1000.01")) scenario_store)) = true.
Proof.
  split; [vm_compute; reflexivity|]. split.
  - destruct (distribute_guard_strict sample_float_of_str LeftToRight sample_env
                (post (distribution_form "1000")) scenario_store (F64.of_Z 1000)
                _ _ eq_refl eq_refl eq_refl eq_refl) as (_ & _ & H).
    destruct H as [_ H]; [vm_compute; reflexivity|].
    destruct H as [H _]; [vm_compute; reflexivity|reflexivity|exact H].
  - destruct (distribute_guard_strict sample_float_of_str LeftToRight sample_env
                (post (distribution_form "1000.01")) scenario_store
                (S754_finite false 8796180983138222 (-43))
                _ _ eq_refl eq_refl eq_refl eq_refl) as (H & _ & _).
    apply H. vm_compute. reflexivity.
Defined.

(** Proposing 1000.01 against the balance of 1000 stores nothing. *)
Lemma rejected_distribution_no_write_witness :
  F64.gtb (S754_finite false 8796180983138222 (-43))
    (current_balance LeftToRight scenario_store) = true
  /\ fst (distribute sample_float_of_str LeftToRight sample_env
            (post (distribution_form "1000.01")) scenario_store) = scenario_store.
Proof.
  split; [vm_compute; reflexivity|].
  destruct (rejected_distribution_no_write sample_float_of_str LeftToRight sample_env
              (post (distribution_form "1000.01")) scenario_store
              (S754_finite false 8796180983138222 (-43))) as (H & _ & _).
  - reflexivity.
  - vm_compute. reflexivity.
  - vm_compute. reflexivity.
  - now rewrite H.
Defined.

(** A request for 2000 without a purpose, against the balance of 1000, is
    answered with the balance error. *)
Lemma distribute_guard_before_required_fields_witness :
  blank [("beneficiary_name", "Ravi"); ("amount", "2000"); ("category", "food")]%string
    "purpose"
  /\ snd (distribute sample_float_of_str LeftToRight sample_env
            (post [("beneficiary_name", "Ravi"); ("amount", "2000");
                   ("category", "food")]%string) scenario_store)
     = Redirect (MsgExceeds (F64.of_Z 2000) (F64.of_Z 1000), error) EpDistribute.
Proof.
  split; [left; reflexivity|].
  destruct (distribute_guard_before_required_fields sample_float_of_str LeftToRight
              sample_env
              (post [("beneficiary_name", "Ravi"); ("amount", "2000");
                     ("category", "food")]%string)
              scenario_store (F64.of_Z 2000)) as (H & _ & _).
  - reflexivity.
  - vm_compute. reflexivity.
  - vm_compute. reflexivity.
  - right. right. left. reflexivity.
  - rewrite H. vm_compute. reflexivity.
Defined.

(** A donation form without an amount, and one whose amount is "0". *)
Lemma donate_zero_amount_rejected_witness :
  donate sample_float_of_str sample_env
    (post [("name", "Asha"); ("email", "asha@example.org"); ("category", "food")]%string)
    empty_store
  = (empty_store, Redirect (MsgFillRequired, error) EpDonate)
  /\ donate sample_float_of_str sample_env (post (donation_form "0")) empty_store
  = (empty_store, Redirect (MsgFillRequired, error) EpDonate).
Proof.
  split.
  - apply donate_zero_amount_rejected; [reflexivity|]. left. reflexivity.
  - apply donate_zero_amount_rejected; [reflexivity|]. right.
    exists "0"%string, (S754_zero false). repeat split.
Defined.

(** A donation with an empty name and a distribution whose amount is not a
    number. *)
Lemma invalid_submission_no_write_witness :
  sample_float_of_str "" = None
  /\ blank [("name", ""); ("email", "asha@example.org"); ("amount", "500");
            ("category", "food")]%string "name"
  /\ fst (donate sample_float_of_str sample_env
            (post [("name", ""); ("email", "asha@example.org"); ("amount", "500");
                   ("category", "food")]%string) scenario_store) = scenario_store
  /\ is_error (snd (distribute sample_float_of_str LeftToRight sample_env
                      (post (distribution_form "abc")) scenario_store)) = true.
Proof.
  split; [reflexivity|]. split; [right; reflexivity|]. split.
  - destruct (invalid_submission_no_write sample_float_of_str LeftToRight sample_env
                (post [("name", ""); ("email", "asha@example.org"); ("amount", "500");
                       ("category", "food")]%string) scenario_store eq_refl eq_refl)
      as [H _].
    apply H. left. right. reflexivity.
  - destruct (invalid_submission_no_write sample_float_of_str LeftToRight sample_env
                (post (distribution_form "abc")) scenario_store eq_refl eq_refl)
      as [_ H].
    apply H. right. right. right. right. exists "abc"%string. split; reflexivity.
Defined.

(** After a donation and a distribution the donation is pending, the
    distribution completed, and the completed donation total is 0. *)
Lemma reachable_statuses_witness :
  reachable sample_float_of_str LeftToRight store_after_distribution
  /\ List.length (donors store_after_distribution) = 1%nat
  /\ List.length (distributions store_after_distribution) = 1%nat
  /\ completed_total_donations LeftToRight store_after_distribution = F64.zero.
Proof.
  assert (R : reachable sample_float_of_str LeftToRight store_after_distribution).
  { unfold store_after_distribution, store_after_donation.
    apply reachable_step. apply reachable_step. apply reachable_empty. }
  split; [exact R|]. split; [reflexivity|]. split; [reflexivity|].
  exact (proj1 (proj2 (proj2 (proj2
           (reachable_statuses sample_float_of_str LeftToRight _ R))))).
Defined.

(** 500 and 300 completed: the balance is exactly 800, whichever row holds
    which amount. *)
Lemma completed_balance_whole_amounts_witness :
  whole_amounts (map Donor.amount (completed_donors (donors two_donations_store)))
    [500; 300]
  /\ whole_amounts
       (map Distribution.amount (completed_distributions (distributions two_donations_store)))
       []
  /\ current_balance Compensated two_donations_store = F64.of_Z 800
  /\ current_balance Compensated (mkStore two_donations_swapped [])
     = current_balance Compensated two_donations_store.
Proof.
  assert (Wd : whole_amounts
                 (map Donor.amount (completed_donors (donors two_donations_store)))
                 [500; 300]).
  { split; [reflexivity|]. split; [repeat constructor; lia|]. vm_compute. reflexivity. }
  assert (Wt : whole_amounts
                 (map Distribution.amount
                    (completed_distributions (distributions two_donations_store))) []).
  { split; [reflexivity|]. split; [constructor|]. vm_compute. reflexivity. }
  split; [exact Wd|]. split; [exact Wt|].
  destruct (completed_balance_whole_amounts Compensated two_donations_store)
    as (_ & _ & _ & H).
  destruct (H [500; 300] [] Wd Wt) as [Hb Hp].
  split; [exact Hb|].
  apply (Hp (mkStore two_donations_swapped [])).
  - apply perm_swap.
  - apply Permutation_refl.
Defined.

(** With the two completed donations the home page and the stats endpoint
    report the same figures. *)
Lemma home_all_rows_stats_completed_only_witness :
  every_row_completed two_donations_store
  /\ response_totals (snd (index Compensated sample_env (post []) two_donations_store))
     = response_totals (snd (get_stats Compensated sample_env (post []) two_donations_store)).
Proof.
  assert (C : every_row_completed two_donations_store).
  { split; repeat constructor. }
  split; [exact C|].
  destruct (home_all_rows_stats_completed_only Compensated sample_env (post [])
              two_donations_store) as (_ & _ & H & _).
  destruct (H C) as (_ & _ & W & _).
  apply (W [500; 300] []).
  - split; [reflexivity|]. split; [repeat constructor; lia|]. vm_compute. reflexivity.
  - split; [reflexivity|]. split; [constructor|]. vm_compute. reflexivity.
Defined.

(** 500 for food and 300 under an unknown tag: the food bucket holds 500,
    the 300 is in no bucket, and [total_donations] is 800. *)
Lemma category_breakdown_witness :
  unrecognized (PyStr "unknown")
  /\ dict_get (ctx_categories (summarize LeftToRight two_donations [])) "food"
     = Some (mkBucket (F64.of_Z 500) F64.zero)
  /\ ctx_categories (summarize LeftToRight two_donations [])
     = ctx_categories (summarize LeftToRight
                         [sample_donor 1 (F64.of_Z 500) "food" "completed" 1] [])
  /\ ctx_total_donations (summarize LeftToRight two_donations []) = F64.of_Z 800.
Proof.
  assert (U : unrecognized (PyStr "unknown")).
  { intros c I. cbn in I. destruct I as [<-|[<-|[<-|[<-|[<-|[]]]]]]; reflexivity. }
  split; [exact U|].
  destruct (category_breakdown LeftToRight two_donations []) as (Hc & _ & _ & Hs & _ & Ht & _).
  split; [|split].
  - rewrite (Hc "food"%string) by (cbn; tauto). vm_compute. reflexivity.
  - exact (proj1 (Hs [sample_donor 1 (F64.of_Z 500) "food" "completed" 1]
                    (sample_donor 2 (F64.of_Z 300) "unknown" "completed" 2) []
                    eq_refl U)).
  - rewrite Ht. vm_compute. reflexivity.
Defined.

(** With empty tables the balance is 0 and a proposal of 5 is rejected. *)
Example empty_store_rejects_positive (alg : summation) :
  distribute sample_float_of_str alg sample_env (post (distribution_form "5")) empty_store
  = (empty_store, Redirect (MsgExceeds (F64.of_Z 5) F64.zero, error) EpDistribute).
Proof. destruct alg; vm_compute; reflexivity. Qed.

(** A donation is stored as pending, so it does not raise the balance; a
    distribution of -5 passes the check and raises the balance to 5. *)
Example balance_after_negative_distribution :
  map Donor.payment_status (donors store_after_distribution) = ["pending"%string]
  /\ map Distribution.amount (distributions store_after_distribution) = [F64.of_Z (-5)]
  /\ current_balance LeftToRight store_after_distribution = F64.of_Z 5.
Proof. vm_compute. repeat split. Qed.

(** Everyday amounts are affected too when the additions are plain: 0.1 +
    0.2 + 0.3 and 0.3 + 0.2 + 0.1 differ in the last bit. *)
Example decimal_amounts_order :
  match sample_float_of_str "0.1", sample_float_of_str "0.2", sample_float_of_str "0.3" with
  | Some a, Some b, Some c =>
      pysum LeftToRight [a; b; c] = S754_finite false 5404319552844596 (-53)
      /\ pysum LeftToRight [c; b; a] = S754_finite false 5404319552844595 (-53)
  | _, _, _ => False
  end.
Proof. vm_compute. split; reflexivity. Qed.

(* ================================================================== *)
(** * Writes, invariants of the ledger, ordering of the home page *)
(* ================================================================== *)

Section Writes.

Variable float_of_str : string -> option float.
Variable alg : summation.

Lemma truthy_val_filled (form : Form) (field : string) :
  truthy_val (get_form_data form field PyNone) = true ->
  filled (get_form_data form field PyNone).
Proof.
  unfold get_form_data. destruct (form_get form field) as [v|]; [|discriminate].
  cbn [truthy_val]. intros H. exists v. split; [reflexivity|].
  intros ->. discriminate H.
Qed.

Lemma get_form_data_textual (form : Form) (field default : string) :
  textual (get_form_data form field (PyStr default)).
Proof.
  unfold get_form_data. destruct (form_get form field) as [v|]; eexists; reflexivity.
Qed.

Lemma all4 (a b c d : bool) :
  negb (all [a; b; c; d]) = false -> a = true /\ b = true /\ c = true /\ d = true.
Proof. destruct a, b, c, d; cbn; intuition discriminate. Qed.

Lemma add_donor_neq (d : Donor.t) (s : Store) : add_donor d s <> s.
Proof.
  intros H. apply (f_equal (fun x => List.length (donors x))) in H.
  cbn in H. rewrite length_app in H. cbn in H. lia.
Qed.

Lemma add_distribution_neq (d : Distribution.t) (s : Store) : add_distribution d s <> s.
Proof.
  intros H. apply (f_equal (fun x => List.length (distributions x))) in H.
  cbn in H. rewrite length_app in H. cbn in H. lia.
Qed.

Lemma handle_outcome (r : route) (env : Env) (req : Request) (s : Store) :
  outcome alg env req s r (handle float_of_str alg r env req s).
Proof.
  destruct r; unfold handle.
  - destruct (req_method req); apply out_read; discriminate.
  - unfold donate. destruct (req_method req) eqn:Hm; [apply out_read; discriminate|].
    destruct (py_float _ _) as [a|e]; [|apply out_refused; discriminate]. cbv zeta.
    destruct (negb _) eqn:Hall; [apply out_refused; discriminate|].
    destruct (commit_ok env) eqn:Hc; [|apply out_refused; discriminate].
    cbn [Donor.name Donor.email Donor.amount Donor.category] in Hall.
    apply all4 in Hall. destruct Hall as (Hn & He & Ha & Hcat).
    match goal with |- outcome _ _ _ _ _ (_, Redirect ?f _) =>
      replace f with (fst f, info)
        by (repeat match goal with |- context [if ?b then _ else _] => destruct b end;
            reflexivity)
    end.
    apply out_donated; try reflexivity; try assumption.
    repeat split; cbn [Donor.name Donor.email Donor.category Donor.amount
                       Donor.payment_method Donor.message];
      auto using truthy_val_filled, get_form_data_textual.
  - unfold distribute. destruct (req_method req) eqn:Hm; [apply out_read; discriminate|].
    destruct (py_float _ _) as [a|e]; [|apply out_refused; discriminate]. cbv zeta.
    destruct (F64.gtb _ _) eqn:G; [apply out_refused; discriminate|].
    destruct (negb _) eqn:Hall; [apply out_refused; discriminate|].
    destruct (commit_ok env) eqn:Hc; [|apply out_refused; discriminate].
    cbn [Distribution.beneficiary_name Distribution.amount Distribution.category
         Distribution.purpose] in Hall.
    apply all4 in Hall. destruct Hall as (Hn & Ha & Hcat & Hp).
    apply out_distributed; try reflexivity; try assumption.
    repeat split; cbn [Distribution.beneficiary_name Distribution.amount
                       Distribution.category Distribution.purpose
                       Distribution.payment_mode];
      auto using truthy_val_filled, get_form_data_textual.
  - destruct (req_method req); apply out_read; discriminate.
Qed.

(** X1.  A request appends at most one row to one table and leaves every
    stored row where and as it was; a GET request writes nothing. *)
Theorem handle_append_only (r : route) (env : Env) (req : Request) (s : Store) :
  let s' := fst (handle float_of_str alg r env req s) in
  (exists new_donors new_distributions,
     donors s' = donors s ++ new_donors
     /\ distributions s' = distributions s ++ new_distributions
     /\ (List.length new_donors + List.length new_distributions <= 1)%nat
     /\ (r <> RDonate -> new_donors = [])
     /\ (r <> RDistribute -> new_distributions = []))
  /\ (req_method req = GET -> s' = s).
Proof.
  intros s'. unfold s'.
  destruct (handle_outcome r env req s) as [r resp _|r m t _|d m Hm _ _ _ _|d Hm _ _ _ _ _];
    cbn [fst].
  - split; [|reflexivity]. exists [], []. rewrite !app_nil_r. repeat split. cbn. lia.
  - split; [|reflexivity]. exists [], []. rewrite !app_nil_r. repeat split. cbn. lia.
  - split; [|congruence]. exists [d], []. rewrite app_nil_r.
    repeat split. cbn. lia. congruence.
  - split; [|congruence]. exists [], [d]. rewrite app_nil_r.
    repeat split. cbn. lia. congruence.
Qed.

(** X2.  The tables change exactly when the response is a redirect to the
    index page, and that redirect never carries an error message. *)
Theorem write_iff_redirect_to_index (r : route) (env : Env) (req : Request) (s : Store) :
  (fst (handle float_of_str alg r env req s) <> s
   <-> exists m c, snd (handle float_of_str alg r env req s) = Redirect (m, c) EpIndex)
  /\ (forall m c, snd (handle float_of_str alg r env req s) = Redirect (m, c) EpIndex ->
        c <> error).
Proof.
  destruct (handle_outcome r env req s) as [r resp N|r m t N|d m _ _ _ _ _|d _ _ _ _ _ _];
    cbn [fst snd].
  - split; [split|].
    + intros H. now elim H.
    + intros (m & c & ->). now elim (N m c EpIndex).
    + intros m c ->. now elim (N m c EpIndex).
  - split; [split|].
    + intros H. now elim H.
    + intros (m' & c & [= _ _ ->]). now elim N.
    + intros m' c [= _ _ ->]. now elim N.
  - split; [split|].
    + intros _. eauto.
    + intros _. apply add_donor_neq.
    + intros m' c [= _ <-]. discriminate.
  - split; [split|].
    + intros _. eauto.
    + intros _. apply add_distribution_neq.
    + intros m' c [= _ <-]. discriminate.
Qed.

(** X3.  When [db.session.commit()] fails nothing is stored, and a request
    that would have stored a row is answered with an error message. *)
Theorem commit_failure_no_write (r : route) (env : Env) (req : Request) (s : Store) :
  commit_ok env = false ->
  fst (handle float_of_str alg r env req s) = s
  /\ (fst (handle float_of_str alg r (mkEnv (utcnow env) true) req s) <> s ->
      is_error (snd (handle float_of_str alg r env req s)) = true).
Proof.
  intros Hc. split.
  - destruct (handle_outcome r env req s) as [| |d m _ Hc' _ _ _|d _ Hc' _ _ _ _];
      try reflexivity; congruence.
  - destruct r; unfold handle.
    + destruct (req_method req); intros H; now elim H.
    + unfold donate. cbn [utcnow commit_ok]. rewrite Hc.
      destruct (req_method req); [intros H; now elim H|].
      destruct (py_float _ _); [|reflexivity]. cbv zeta.
      destruct (negb _); reflexivity.
    + unfold distribute. cbn [utcnow commit_ok]. rewrite Hc.
      destruct (req_method req); [intros H; now elim H|].
      destruct (py_float _ _); [|reflexivity]. cbv zeta.
      destruct (F64.gtb _ _); [reflexivity|].
      destruct (negb _); reflexivity.
    + destruct (req_method req); intros H; now elim H.
Qed.

(** X4.  In every store that the application can reach, each stored donation
    has a non-empty name, email and category, a non-zero amount, and strings
    for payment method and message; each stored distribution has a
    non-empty beneficiary name, category and purpose, a non-zero amount and
    a string for the payment mode. *)
Theorem reachable_rows_well_formed (s : Store) :
  reachable float_of_str alg s ->
  Forall donor_well_formed (donors s)
  /\ Forall distribution_well_formed (distributions s).
Proof.
  induction 1 as [|s r env req _ [IHd IHt]]; [split; constructor|].
  destruct (handle_outcome r env req s) as [| |d m _ _ W _ _|d _ _ W _ _ _];
    cbn [fst add_donor add_distribution donors distributions];
    try (split; assumption).
  - split; [|assumption]. apply Forall_app. split; [assumption|].
    constructor; [exact W|constructor].
  - split; [assumption|]. apply Forall_app. split; [assumption|].
    constructor; [exact W|constructor].
Qed.

End Writes.

Section Ledger.

Variable float_of_str : string -> option float.
Variable alg : summation.

Lemma reachable_pending (s : Store) :
  reachable float_of_str alg s ->
  Forall (fun d => Donor.payment_status d = "pending"%string) (donors s).
Proof.
  induction 1 as [|s r env req _ IH]; [constructor|].
  destruct (handle_outcome float_of_str alg r env req s) as [| |d m _ _ _ P _|d _ _ _ _ _ _];
    cbn [fst add_donor add_distribution donors]; try assumption.
  apply Forall_app. split; [assumption|]. constructor; [exact P|constructor].
Qed.

Lemma completed_donors_app (l1 l2 : list Donor.t) :
  completed_donors (l1 ++ l2) = completed_donors l1 ++ completed_donors l2.
Proof. apply filter_app. Qed.

Lemma completed_distributions_app (l1 l2 : list Distribution.t) :
  completed_distributions (l1 ++ l2)
  = completed_distributions l1 ++ completed_distributions l2.
Proof. apply filter_app. Qed.

(** The balance check and the stats look at the donations only through the
    completed ones. *)
Lemma distribute_same_completed (env : Env) (req : Request) (s s' : Store) :
  completed_donors (donors s') = completed_donors (donors s) ->
  distributions s' = distributions s ->
  snd (distribute float_of_str alg env req s')
  = snd (distribute float_of_str alg env req s).
Proof.
  intros Hd Ht. unfold distribute. rewrite Hd, Ht.
  destruct (req_method req); [reflexivity|].
  destruct (py_float _ _); [|reflexivity]. cbv zeta.
  destruct (F64.gtb _ _); [reflexivity|].
  destruct (negb _); [reflexivity|].
  destruct (commit_ok env); reflexivity.
Qed.

(** X5.  A donation never changes what can be distributed: whatever POST
    /donate does, the completed donations, the balance, the answer of GET
    /api/stats and the answer to any POST /distribute are the same after it
    as before. *)
Theorem donate_preserves_balance (env : Env) (req : Request) (s : Store) :
  let s' := fst (donate float_of_str env req s) in
  completed_donors (donors s') = completed_donors (donors s)
  /\ current_balance alg s' = current_balance alg s
  /\ (forall env' req',
        snd (get_stats alg env' req' s') = snd (get_stats alg env' req' s))
  /\ (forall env' req',
        snd (distribute float_of_str alg env' req' s')
        = snd (distribute float_of_str alg env' req' s)).
Proof.
  intros s'.
  assert (H : completed_donors (donors s') = completed_donors (donors s)
              /\ distributions s' = distributions s).
  { unfold s'. change (donate float_of_str env req s)
      with (handle float_of_str alg RDonate env req s).
    remember RDonate as r eqn:Hr.
    destruct (handle_outcome float_of_str alg r env req s)
      as [| |d m _ _ _ P _|d _ _ _ _ _ _]; cbn [fst]; try (split; reflexivity);
      [|discriminate].
    cbn [add_donor donors distributions]. split; [|reflexivity].
    rewrite completed_donors_app. unfold completed_donors at 2. cbn [filter].
    rewrite P. cbn. apply app_nil_r. }
  destruct H as [Hd Ht].
  assert (Hb : current_balance alg s' = current_balance alg s).
  { unfold current_balance, completed_total_donations, completed_total_distributions.
    now rewrite Hd, Ht. }
  split; [exact Hd|]. split; [exact Hb|]. split.
  - intros env' req'. unfold get_stats. cbv zeta. cbn [snd]. now rewrite Hd, Ht.
  - intros env' req'. now apply distribute_same_completed.
Qed.

(** X6.  However much has been donated, while no distribution is stored
    every proposal of a positive amount is rejected against a balance of 0;
    hence the first distribution ever stored has an amount that is not
    positive. *)
Theorem first_distribution_not_positive (s : Store) :
  reachable float_of_str alg s ->
  (distributions s = [] ->
   forall env req a,
     req_method req = POST ->
     py_float float_of_str (get_form_data (req_form req) "amount" (PyInt 0)) = Ok a ->
     F64.gtb a F64.zero = true ->
     distribute float_of_str alg env req s
     = (s, Redirect (MsgExceeds a F64.zero, error) EpDistribute))
  /\ (forall d rest, distributions s = d :: rest ->
        F64.gtb (Distribution.amount d) F64.zero = false).
Proof.
  intros R.
  assert (Z0 : forall s0, reachable float_of_str alg s0 -> distributions s0 = [] ->
                 current_balance alg s0 = F64.zero).
  { intros s0 R0 E. unfold current_balance, completed_total_donations,
      completed_total_distributions.
    rewrite (pending_not_completed _ (reachable_pending s0 R0)), E.
    cbn [completed_distributions filter map]. rewrite pysum_nil. reflexivity. }
  split.
  - intros E env req a Hm Ha G.
    rewrite (distribute_post float_of_str alg env req s a Hm Ha), (Z0 s R E), G.
    reflexivity.
  - induction R as [|s r env req R IH]; [discriminate|].
    destruct (handle_outcome float_of_str alg r env req s) as [| |d m _ _ _ _ _|d _ _ _ _ _ G];
      cbn [fst add_donor add_distribution distributions]; try exact IH.
    intros d0 rest E. destruct (distributions s) as [|d1 l] eqn:Ed.
    + cbn in E. injection E as <- _. now rewrite (Z0 s R Ed) in G.
    + cbn in E. injection E as <- _. now apply (IH d1 l).
Qed.

(** X7.  POST /donate checks that the four required fields are present and
    nothing more: any non-empty category, any non-zero amount (a negative
    one included) and any payment method are stored as submitted, the
    status is ["pending"], and the message shown depends only on the
    payment method: UPI when it is absent or ["upi"], card for ["card"],
    net banking for everything else. *)
Theorem donate_stores_as_submitted
    (env : Env) (req : Request) (s : Store) (n e c : string) (a : float) :
  req_method req = POST ->
  form_get (req_form req) "name" = Some n -> n <> EmptyString ->
  form_get (req_form req) "email" = Some e -> e <> EmptyString ->
  form_get (req_form req) "category" = Some c -> c <> EmptyString ->
  py_float float_of_str (get_form_data (req_form req) "amount" (PyInt 0)) = Ok a ->
  F64.truthy a = true ->
  commit_ok env = true ->
  donate float_of_str env req s
  = (add_donor
       (Donor.mk (next_id (donors s)) (PyStr n) (PyStr e) a (PyStr c)
          (match form_get (req_form req) "payment_method" with
           | Some m => PyStr m
           | None => PyStr "upi"
           end)
          "pending" (utcnow env)
          (match form_get (req_form req) "message" with
           | Some m => PyStr m
           | None => PyStr ""
           end)) s,
     Redirect (payment_message (form_get (req_form req) "payment_method"), info) EpIndex).
Proof.
  intros Hm Hn Nn He Ne Hc Nc Ha Ta Hok.
  assert (T : forall t, t <> EmptyString -> negb (String.eqb t "") = true).
  { intros t Ht. destruct (String.eqb_spec t ""); [contradiction|reflexivity]. }
  rewrite (donate_post float_of_str env req s a Hm Ha).
  unfold get_form_data. rewrite Hn, He, Hc, Ta, Hok.
  cbn [truthy_val all forallb]. rewrite !T by assumption. cbn [andb negb].
  f_equal. f_equal. unfold payment_message.
  destruct (form_get (req_form req) "payment_method") as [m|]; cbn [pyval_eqb_str].
  - destruct (String.eqb m "upi"); [reflexivity|].
    destruct (String.eqb m "card"); reflexivity.
  - reflexivity.
Qed.

Lemma insert_desc_newest_first {A : Type} (date : A -> Z) (x : A) (l : list A) :
  newest_first date l -> newest_first date (insert_desc date x l).
Proof.
  unfold newest_first. induction 1 as [|y l S IH F]; cbn [insert_desc].
  - repeat constructor.
  - destruct (date y <=? date x) eqn:E.
    + apply Z.leb_le in E. constructor; [now constructor|].
      constructor; [exact E|].
      eapply Forall_impl; [|exact F]. cbn. intros; lia.
    + apply Z.leb_gt in E. constructor; [exact IH|].
      eapply Permutation_Forall; [apply Permutation_sym, insert_desc_perm|].
      constructor; [lia|exact F].
Qed.

Lemma order_by_desc_newest_first {A : Type} (date : A -> Z) (l : list A) :
  newest_first date (order_by_desc date l).
Proof.
  induction l as [|x l IH]; cbn [order_by_desc fold_right]; [constructor|].
  now apply insert_desc_newest_first.
Qed.

(** X8.  GET / lists every stored donation and every stored distribution
    exactly once, newest first. *)
Theorem index_lists_newest_first (env : Env) (req : Request) (s : Store) :
  exists ctx,
    snd (index alg env req s) = RenderIndex ctx
    /\ newest_first Donor.date (ctx_donations ctx)
    /\ Permutation (ctx_donations ctx) (donors s)
    /\ newest_first Distribution.date (ctx_distributions ctx)
    /\ Permutation (ctx_distributions ctx) (distributions s).
Proof.
  eexists. split; [reflexivity|]. cbn [summarize ctx_donations ctx_distributions].
  repeat split; auto using order_by_desc_newest_first, order_by_desc_perm.
Qed.

End Ledger.

(* ================================================================== *)
(** * Comparison of whole numbers as floats                            *)
(* ================================================================== *)

Lemma digits2_pos_bounds (p : positive) :
  2 ^ (Zpos (digits2_pos p) - 1) <= Zpos p < 2 ^ Zpos (digits2_pos p).
Proof.
  rewrite digits2_pos_size.
  pose proof (Pos.size_gt p) as G. pose proof (Pos.size_le p) as L.
  apply Pos2Z.pos_lt_pos in G. apply Pos2Z.pos_le_pos in L.
  rewrite Pos2Z.inj_pow in G, L.
  change (Z.pos p~0) with (2 * Z.pos p) in L.
  split; [|exact G].
  replace (Zpos (Pos.size p)) with (Z.succ (Zpos (Pos.size p) - 1)) in L by lia.
  rewrite Z.pow_succ_r in L by lia. lia.
Qed.

Lemma digits2_pos_lt (q p : positive) :
  Zpos (digits2_pos q) < Zpos (digits2_pos p) -> Zpos q < Zpos p.
Proof.
  intros H. pose proof (digits2_pos_bounds q) as [_ Bq].
  pose proof (digits2_pos_bounds p) as [Bp _].
  assert (2 ^ Zpos (digits2_pos q) <= 2 ^ (Zpos (digits2_pos p) - 1))
    by (apply Z.pow_le_mono_r; lia).
  lia.
Qed.

(** On whole numbers below [2^53] the float comparison is the comparison of
    the integers. *)
Lemma compare_int (q p : positive) :
  Zpos q < 2 ^ 53 -> Zpos p < 2 ^ 53 ->
  SFcompare (S754_finite false (int_mantissa q) (int_exponent q))
            (S754_finite false (int_mantissa p) (int_exponent p))
  = Some (Zpos q ?= Zpos p).
Proof.
  intros Hq Hp. cbn [SFcompare]. f_equal.
  pose proof (int_exponent_range q Hq) as Rq.
  pose proof (int_exponent_range p Hp) as Rp.
  destruct (int_exponent q ?= int_exponent p) eqn:E.
  - apply Z.compare_eq in E.
    change (Pos.compare_cont Eq (int_mantissa q) (int_mantissa p))
      with (Zpos (int_mantissa q) ?= Zpos (int_mantissa p)).
    rewrite !int_mantissa_eq, E by assumption.
    symmetry. apply Zmult_compare_compat_r.
    apply Z.lt_gt, Z.pow_pos_nonneg; lia.
  - symmetry. apply Z.compare_lt_iff. apply digits2_pos_lt.
    rewrite Z.compare_lt_iff in E. unfold int_exponent in E. lia.
  - symmetry. apply Z.compare_gt_iff. apply digits2_pos_lt.
    rewrite Z.compare_gt_iff in E. unfold int_exponent in E. lia.
Qed.

Lemma gtb_of_Z (z b : Z) :
  0 < z < 2 ^ 53 -> Z.abs b < 2 ^ 53 ->
  F64.gtb (F64.of_Z z) (F64.of_Z b) = (b <? z).
Proof.
  intros Hz Hb. destruct z as [|p|p]; try lia.
  unfold F64.gtb, SFltb, F64.of_Z, binary_normalize.
  rewrite (binary_round_int false p) by lia.
  destruct b as [|q|q].
  - reflexivity.
  - rewrite (binary_round_int false q) by exact Hb.
    rewrite compare_int by (exact Hb || lia).
    unfold Z.ltb. now destruct (Zpos q ?= Zpos p).
  - rewrite (binary_round_int true q) by exact Hb. reflexivity.
Qed.

(* ================================================================== *)
(** * Infinite and undefined amounts                                   *)
(* ================================================================== *)

Lemma add_never_greater_l (x y : float) :
  never_greater x = true -> never_greater (F64.add x y) = true.
Proof.
  destruct x as [s|[|]| |s m e]; try discriminate; intros _;
    destruct y as [s'|[|]| |s' m' e']; reflexivity.
Qed.

Lemma add_never_greater_r (x y : float) :
  never_greater y = true -> never_greater (F64.add x y) = true.
Proof.
  destruct y as [s|[|]| |s m e]; try discriminate; intros _;
    destruct x as [s'|[|]| |s' m' e']; reflexivity.
Qed.

Lemma fold_add_never_greater (l : list float) : forall acc : float,
  never_greater acc = true \/ Exists (fun x => never_greater x = true) l ->
  never_greater (fold_left F64.add l acc) = true.
Proof.
  induction l as [|x l IH]; intros acc H; cbn [fold_left].
  - destruct H as [H|H]; [exact H|inversion H].
  - apply IH. destruct H as [H|H].
    + left. now apply add_never_greater_l.
    + inversion H; subst; [left; now apply add_never_greater_r|now right].
Qed.

Lemma fold_neumaier_never_greater (l : list float) : forall f c : float,
  never_greater f = true \/ Exists (fun x => never_greater x = true) l ->
  never_greater (fst (fold_left neumaier_step l (f, c))) = true.
Proof.
  induction l as [|x l IH]; intros f c H; cbn [fold_left].
  - destruct H as [H|H]; [exact H|inversion H].
  - unfold neumaier_step at 2. cbv zeta. apply IH. destruct H as [H|H].
    + left. now apply add_never_greater_l.
    + inversion H; subst; [left; now apply add_never_greater_r|now right].
Qed.

Lemma neumaier_finish_never_greater (st : float * float) :
  never_greater (fst st) = true -> never_greater (neumaier_finish st) = true.
Proof.
  destruct st as [f c]. cbn [fst]. intros H. unfold neumaier_finish.
  destruct (F64.truthy c && F64.is_finite c); [now apply add_never_greater_l|exact H].
Qed.

(** A total that includes minus infinity or NaN is minus infinity or NaN. *)
Lemma pysum_never_greater (alg : summation) (l : list float) :
  Exists (fun x => never_greater x = true) l -> never_greater (pysum alg l) = true.
Proof.
  intros H. destruct alg; unfold pysum.
  - apply fold_add_never_greater. now right.
  - destruct l as [|x l]; [inversion H|]. unfold sum_compensated.
    apply neumaier_finish_never_greater, fold_neumaier_never_greater.
    inversion H; subst; [left; now apply add_never_greater_r|now right].
Qed.

Lemma sub_never_exceeded (x y : float) :
  never_greater y = true -> never_exceeded (F64.sub x y) = true.
Proof.
  destruct y as [s|[|]| |s m e]; try discriminate; intros _;
    destruct x as [s'|[|]| |s' m' e']; reflexivity.
Qed.

Lemma gtb_never_exceeded (a b : float) : never_exceeded b = true -> F64.gtb a b = false.
Proof.
  destruct b as [s|[|]| |s m e]; try discriminate; intros _;
    destruct a as [s'|[|]| |s' m' e']; reflexivity.
Qed.

Lemma gtb_never_greater (a b : float) : never_greater a = true -> F64.gtb a b = false.
Proof.
  destruct a as [s|[|]| |s m e]; try discriminate; intros _;
    destruct b as [s'|[|]| |s' m' e']; try reflexivity; destruct s'; reflexivity.
Qed.

Lemma never_greater_truthy (a : float) : never_greater a = true -> F64.truthy a = true.
Proof. destruct a as [s|[|]| |s m e]; try discriminate; reflexivity. Qed.

Section Infinite.

Variable float_of_str : string -> option float.
Variable alg : summation.

Lemma exists_amount_completed (rows : list Distribution.t) :
  Exists (fun d => Distribution.status d = "completed"%string
                   /\ never_greater (Distribution.amount d) = true) rows ->
  Exists (fun x => never_greater x = true)
    (map Distribution.amount (completed_distributions rows)).
Proof.
  induction 1 as [d rows [Hs Ha]|d rows _ IH]; unfold completed_distributions in *;
    cbn [filter].
  - rewrite Hs. cbn. now left.
  - destruct (String.eqb _ _); [cbn; now right|exact IH].
Qed.

Lemma poisoned_balance (s : Store) :
  Exists (fun d => Distribution.status d = "completed"%string
                   /\ never_greater (Distribution.amount d) = true)
    (distributions s) ->
  never_exceeded (current_balance alg s) = true.
Proof.
  intros H. unfold current_balance, completed_total_distributions.
  apply sub_never_exceeded, pysum_never_greater. now apply exists_amount_completed.
Qed.

(** Rows are only appended: a completed distribution of minus infinity or
    NaN stays in the table whatever requests follow. *)
Lemma minus_infinity_stays (s0 s : Store) :
  reachable_from float_of_str alg s0 s ->
  Exists (fun d => Distribution.status d = "completed"%string
                   /\ never_greater (Distribution.amount d) = true)
    (distributions s0) ->
  Exists (fun d => Distribution.status d = "completed"%string
                   /\ never_greater (Distribution.amount d) = true)
    (distributions s).
Proof.
  intros R E. induction R as [|s r env req _ IH]; [exact E|].
  destruct (handle_outcome float_of_str alg r env req s) as [| |d m _ _ _ _ _|d _ _ _ _ _ _];
    cbn [fst add_donor add_distribution distributions]; try exact IH.
  apply Exists_app. now left.
Qed.

(** Against a balance of plus infinity or NaN nothing is rejected. *)
Lemma never_exceeded_never_rejects (env : Env) (req : Request) (s : Store) :
  never_exceeded (current_balance alg s) = true ->
  balance_exceeded (snd (distribute float_of_str alg env req s)) = false.
Proof.
  intros P. destruct (req_method req) eqn:Hm.
  - unfold distribute. now rewrite Hm.
  - destruct (py_float float_of_str (get_form_data (req_form req) "amount" (PyInt 0)))
      as [a|e] eqn:Ha.
    + rewrite (distribute_exceeded float_of_str alg env req s a Hm Ha).
      now apply gtb_never_exceeded.
    + unfold distribute. now rewrite Hm, Ha.
Qed.

(** X10.  The balance check does not stop an amount of minus infinity: the
    comparison [amount > balance] is false for it against every balance,
    and the amount is truthy, so with the other fields filled in and a
    working commit the distribution is stored.  From then on, in that store
    and in every store that later requests make of it, the balance is plus
    infinity or NaN and no proposal whatever is answered with the
    balance-exceeded error. *)
Theorem negative_infinity_defeats_guard (env : Env) (req : Request) (s : Store) :
  req_method req = POST ->
  py_float float_of_str (get_form_data (req_form req) "amount" (PyInt 0))
    = Ok (S754_infinity true) ->
  balance_exceeded (snd (distribute float_of_str alg env req s)) = false
  /\ (all [ truthy_val (get_form_data (req_form req) "beneficiary_name" PyNone);
            truthy_val (get_form_data (req_form req) "category" PyNone);
            truthy_val (get_form_data (req_form req) "purpose" PyNone) ] = true ->
      commit_ok env = true ->
      snd (distribute float_of_str alg env req s) = Redirect (MsgRecorded, success) EpIndex
      /\ forall later,
           reachable_from float_of_str alg
             (fst (distribute float_of_str alg env req s)) later ->
           never_exceeded (current_balance alg later) = true
           /\ forall env' req',
                balance_exceeded (snd (distribute float_of_str alg env' req' later))
                = false).
Proof.
  intros Hm Ha.
  pose proof (gtb_never_greater (S754_infinity true) (current_balance alg s) eq_refl) as G.
  split.
  - now rewrite (distribute_exceeded float_of_str alg env req s _ Hm Ha).
  - intros Hall Hc.
    rewrite (distribute_post float_of_str alg env req s _ Hm Ha), G, Hc.
    cbn [all forallb] in Hall |- *.
    destruct (truthy_val (get_form_data (req_form req) "beneficiary_name" PyNone));
      [|discriminate Hall].
    destruct (truthy_val (get_form_data (req_form req) "category" PyNone));
      [|discriminate Hall].
    destruct (truthy_val (get_form_data (req_form req) "purpose" PyNone));
      [|discriminate Hall].
    cbn [F64.truthy F64.eqb SFeqb SFcompare F64.zero andb negb fst snd].
    split; [reflexivity|]. intros later R.
    assert (P : never_exceeded (current_balance alg later) = true).
    { apply poisoned_balance. apply (minus_infinity_stays _ _ R).
      cbn [add_distribution distributions]. apply Exists_app. right. left.
      cbn. split; reflexivity. }
    split; [exact P|]. intros env' req'. now apply never_exceeded_never_rejects.
Qed.

End Infinite.

(* ================================================================== *)
(** * The balance check on whole-number amounts                        *)
(* ================================================================== *)

Lemma Zsum_app (l1 l2 : list Z) : Zsum (l1 ++ l2) = Zsum l1 + Zsum l2.
Proof. unfold Zsum. induction l1 as [|z l1 IH]; cbn [app fold_right]; lia. Qed.

Section WholeNumbers.

Variable float_of_str : string -> option float.
Variable alg : summation.

(** X9.  With whole-number amounts (every total below [2^53]) the balance
    check is exact: a proposal of [z > 0] is rejected precisely when [z]
    exceeds the available balance [sum(D) - sum(T)], and whenever the
    request stores a row the new balance is the old one minus [z], and it
    is not negative. *)
Theorem whole_distribution_never_overdraws
    (env : Env) (req : Request) (s : Store) (zd zt : list Z) (z : Z) :
  whole_amounts (map Donor.amount (completed_donors (donors s))) zd ->
  whole_amounts (map Distribution.amount (completed_distributions (distributions s))) zt ->
  req_method req = POST ->
  py_float float_of_str (get_form_data (req_form req) "amount" (PyInt 0)) = Ok (F64.of_Z z) ->
  0 < z < 2 ^ 53 ->
  let available := Zsum zd - Zsum zt in
  let s' := fst (distribute float_of_str alg env req s) in
  (balance_exceeded (snd (distribute float_of_str alg env req s)) = true <-> available < z)
  /\ (s' = s
      \/ (z <= available
          /\ current_balance alg s' = F64.of_Z (available - z)
          /\ 0 <= available - z)).
Proof.
  intros Wd Wt Hm Ha Hz available s'.
  destruct (current_balance_whole alg s zd zt Wd Wt) as (_ & _ & Eb).
  destruct (whole_amounts_pysum alg _ _ Wd) as [_ Rd].
  destruct (whole_amounts_pysum alg _ _ Wt) as [_ Rt].
  assert (G : F64.gtb (F64.of_Z z) (current_balance alg s) = (available <? z)).
  { rewrite Eb. apply gtb_of_Z; [exact Hz|unfold available; lia]. }
  split.
  - rewrite (distribute_exceeded float_of_str alg env req s _ Hm Ha), G.
    apply Z.ltb_lt.
  - unfold s'. rewrite (distribute_post float_of_str alg env req s _ Hm Ha), G.
    destruct (available <? z) eqn:L; [left; reflexivity|].
    apply Z.ltb_ge in L.
    destruct (negb _); [left; reflexivity|].
    destruct (commit_ok env); [|left; reflexivity].
    right. cbn [fst]. split; [exact L|]. split; [|lia].
    match goal with |- current_balance alg ?st = _ =>
      destruct (current_balance_whole alg st zd (zt ++ [z])) as (_ & _ & E)
    end.
    + exact Wd.
    + cbn [add_distribution distributions].
      rewrite completed_distributions_app, map_app.
      destruct Wt as (Et & Ft & Lt). rewrite Et.
      split; [|split].
      * now rewrite map_app.
      * apply Forall_app. split; [exact Ft|]. constructor; [lia|constructor].
      * rewrite Zsum_app. cbn [Zsum fold_right]. unfold available in L. lia.
    + rewrite E, Zsum_app. cbn [Zsum fold_right]. f_equal. unfold available. lia.
Qed.

End WholeNumbers.

(* ================================================================== *)
(** * The buckets add up                                               *)
(* ================================================================== *)

Lemma Zsum_if {A : Type} (w : A -> Z) (b : bool) (x : A) (l : list A) :
  Zsum (map w (if b then x :: l else l)) = (if b then w x else 0) + Zsum (map w l).
Proof. destruct b; reflexivity. Qed.

Lemma Zsum_filter_bounds {A : Type} (w : A -> Z) (f : A -> bool) (l : list A) :
  Forall (fun x => 0 <= w x) l ->
  0 <= Zsum (map w (filter f l)) <= Zsum (map w l).
Proof.
  induction 1 as [|x l Hx _ IH]; cbn [filter]; [cbn; lia|].
  rewrite Zsum_if. change (Zsum (map w (x :: l))) with (w x + Zsum (map w l)).
  destruct (f x); lia.
Qed.

(** A category value falls into exactly one of six classes: one of the five
    keys, or none of them. *)
Lemma one_share (v : pyval) (x : Z) :
  (if pyval_eqb_str v "education" then x else 0)
  + (if pyval_eqb_str v "healthcare" then x else 0)
  + (if pyval_eqb_str v "food" then x else 0)
  + (if pyval_eqb_str v "shelter" then x else 0)
  + (if pyval_eqb_str v "emergency" then x else 0)
  + (if negb (dict_mem v initial_categories) then x else 0)
  = x.
Proof.
  destruct v as [|k|n]; [cbn; lia| |cbn; lia].
  cbn [pyval_eqb_str dict_mem initial_categories dict_get].
  destruct (String.eqb_spec k "education") as [->|N1]; [cbn; lia|].
  destruct (String.eqb_spec "education" k) as [E|_]; [congruence|].
  destruct (String.eqb_spec k "healthcare") as [->|N2]; [cbn; lia|].
  destruct (String.eqb_spec "healthcare" k) as [E|_]; [congruence|].
  destruct (String.eqb_spec k "food") as [->|N3]; [cbn; lia|].
  destruct (String.eqb_spec "food" k) as [E|_]; [congruence|].
  destruct (String.eqb_spec k "shelter") as [->|N4]; [cbn; lia|].
  destruct (String.eqb_spec "shelter" k) as [E|_]; [congruence|].
  destruct (String.eqb_spec k "emergency") as [->|N5]; [cbn; lia|].
  destruct (String.eqb_spec "emergency" k) as [E|_]; [congruence|].
  cbn. lia.
Qed.

Lemma whole_rows_amounts {A : Type} (amount : A -> float) (w : A -> Z) (l : list A) :
  Forall (fun x => amount x = F64.of_Z (w x) /\ 0 <= w x) l ->
  map amount l = map F64.of_Z (map w l) /\ Forall (fun z => 0 <= z) (map w l).
Proof.
  induction 1 as [|x l [E P] _ [IH1 IH2]]; cbn [map]; [split; constructor|].
  split; [now rewrite E, IH1|now constructor].
Qed.

Section Shares.

Variable alg : summation.

(** X11.  With whole-number donation amounts whose total is below [2^53],
    every donation bucket is exactly the total of the donations of its
    category, [total_donations] is exactly the total of all donations, and
    the five buckets together with the donations whose category is none of
    the five keys add up to [total_donations]. *)
Theorem donation_buckets_add_up
    (donations : list Donor.t) (distributions : list Distribution.t) (w : Donor.t -> Z) :
  Forall (fun d => Donor.amount d = F64.of_Z (w d) /\ 0 <= w d) donations ->
  Zsum (map w donations) < 2 ^ 53 ->
  let ctx := summarize alg donations distributions in
  let in_bucket := fun c => Zsum (map w (donations_in c donations)) in
  let outside :=
    Zsum (map w (filter (fun d => negb (dict_mem (Donor.category d) initial_categories))
                   donations)) in
  (forall c, In c category_keys ->
     exists b, dict_get (ctx_categories ctx) c = Some b
               /\ bucket_donations b = F64.of_Z (in_bucket c))
  /\ ctx_total_donations ctx = F64.of_Z (Zsum (map w donations))
  /\ Zsum (map in_bucket category_keys) + outside = Zsum (map w donations).
Proof.
  intros W L ctx in_bucket outside.
  destruct (whole_rows_amounts Donor.amount w donations W) as [Ea Pa].
  assert (Wf : Forall (fun d => 0 <= w d) donations)
    by (eapply Forall_impl; [|exact W]; cbn; tauto).
  split; [|split].
  - intros c I. eexists. split.
    + unfold ctx, summarize. cbn [ctx_categories].
      apply (fold_count_distribution_get distributions _ c _
               (fold_count_donation_get donations _ c _ (initial_categories_get c I))).
    + cbn [bucket_donations empty_bucket].
      assert (Wc : Forall (fun d => Donor.amount d = F64.of_Z (w d) /\ 0 <= w d)
                     (donations_in c donations)).
      { apply Forall_forall. intros d Hd. apply filter_In in Hd.
        rewrite Forall_forall in W. now apply W. }
      destruct (whole_rows_amounts Donor.amount w _ Wc) as [Ec Pc].
      rewrite Ec. change F64.zero with (F64.of_Z 0).
      pose proof (Zsum_filter_bounds w (fun d => pyval_eqb_str (Donor.category d) c)
                    donations Wf) as B.
      fold (donations_in c donations) in B.
      rewrite fold_add_ints; [reflexivity|lia|exact Pc|lia].
  - unfold ctx, summarize. cbn [ctx_total_donations]. rewrite Ea.
    now apply pysum_ints.
  - unfold in_bucket, outside, donations_in, category_keys, initial_categories.
    cbn [map fst Zsum fold_right].
    clear - donations. induction donations as [|d l IH]; [reflexivity|].
    cbn [filter]. rewrite !Zsum_if.
    change (Zsum (map w (d :: l))) with (w d + Zsum (map w l)).
    pose proof (one_share (Donor.category d) (w d)) as S.
    unfold initial_categories in S. lia.
Qed.

End Shares.

(* ================================================================== *)
(** * Form fields                                                      *)
(* ================================================================== *)

Lemma form_get_absent (form : Form) (field : string) :
  (forall v, ~ In (field, v) form) -> form_get form field = None.
Proof.
  induction form as [|[k v] form IH]; [reflexivity|]. intros N. cbn [form_get].
  destruct (String.eqb_spec k field) as [->|_].
  - elim (N v). now left.
  - apply IH. intros v' I. apply (N v'). now right.
Qed.

Lemma form_get_present (form : Form) (field v : string) :
  In (field, v) form ->
  exists v', In (field, v') form /\ form_get form field = Some v'.
Proof.
  induction form as [|[k v0] form IH]; [intros []|]. intros I. cbn [form_get].
  destruct (String.eqb_spec k field) as [->|N].
  - exists v0. split; [now left|reflexivity].
  - destruct I as [[= -> _]|I]; [contradiction|].
    destruct (IH I) as (v' & I' & E). exists v'. split; [now right|exact E].
Qed.

Lemma form_get_first (before after : Form) (field v : string) :
  (forall v', ~ In (field, v') before) ->
  form_get (before ++ (field, v) :: after) field = Some v.
Proof.
  intros N. induction before as [|[k v0] before IH]; cbn [app form_get].
  - now rewrite String.eqb_refl.
  - destruct (String.eqb_spec k field) as [->|_].
    + elim (N v0). now left.
    + apply IH. intros v' I. apply (N v'). now right.
Qed.

(** X12.  [get_form_data] returns the default exactly for a field that the
    form does not carry.  A submitted value is returned as it is, the empty
    string included, whatever the default; of a field submitted more than
    once the first value counts. *)
Theorem get_form_data_default_only_if_absent (form : Form) (field : string) (default : pyval) :
  ((forall v, ~ In (field, v) form) -> get_form_data form field default = default)
  /\ (forall v, In (field, v) form ->
        exists v', In (field, v') form /\ get_form_data form field default = PyStr v')
  /\ (forall before v after,
        form = before ++ (field, v) :: after ->
        (forall v', ~ In (field, v') before) ->
        get_form_data form field default = PyStr v).
Proof.
  unfold get_form_data. split; [|split].
  - intros N. now rewrite (form_get_absent form field N).
  - intros v I. destruct (form_get_present form field v I) as (v' & I' & ->). eauto.
  - intros before v after -> N. now rewrite (form_get_first before after field v N).
Qed.

(* ================================================================== *)
(** * More worked examples                                             *)
(* ================================================================== *)

(** A donation of 500 appends one donor row and no distribution. *)
Lemma handle_append_only_witness :
  donors (fst (handle sample_float_of_str LeftToRight RDonate sample_env
                 (post (donation_form "500")) scenario_store))
  = donors scenario_store
    ++ [Donor.mk 2 (PyStr "Asha") (PyStr "asha@example.org") (F64.of_Z 500)
          (PyStr "food") (PyStr "upi") "pending" 1700000000 (PyStr "")]
  /\ fst (handle sample_float_of_str LeftToRight RDonate sample_env
            (mkRequest GET (donation_form "500")) scenario_store) = scenario_store.
Proof.
  destruct (handle_append_only sample_float_of_str LeftToRight RDonate sample_env
              (mkRequest GET (donation_form "500")) scenario_store) as [_ G].
  split; [vm_compute; reflexivity|]. apply G. reflexivity.
Defined.

(** The stored donation comes with a redirect to the index page. *)
Lemma write_iff_redirect_to_index_witness :
  fst (handle sample_float_of_str LeftToRight RDonate sample_env
         (post (donation_form "500")) empty_store) <> empty_store.
Proof.
  destruct (write_iff_redirect_to_index sample_float_of_str LeftToRight RDonate
              sample_env (post (donation_form "500")) empty_store) as [[_ W] _].
  apply W. exists MsgUPI, info. vm_compute. reflexivity.
Defined.

(** The same donation when the commit fails. *)
Lemma commit_failure_no_write_witness :
  commit_ok failing_env = false
  /\ fst (handle sample_float_of_str LeftToRight RDonate failing_env
            (post (donation_form "500")) empty_store) = empty_store
  /\ is_error (snd (handle sample_float_of_str LeftToRight RDonate failing_env
                      (post (donation_form "500")) empty_store)) = true.
Proof.
  destruct (commit_failure_no_write sample_float_of_str LeftToRight RDonate failing_env
              (post (donation_form "500")) empty_store eq_refl) as [N E].
  split; [reflexivity|]. split; [exact N|]. apply E.
  vm_compute. discriminate.
Defined.

(** The rows stored by the donation of 500 and the distribution of -5. *)
Lemma reachable_rows_well_formed_witness :
  reachable sample_float_of_str LeftToRight store_after_distribution
  /\ Forall donor_well_formed (donors store_after_distribution)
  /\ Forall distribution_well_formed (distributions store_after_distribution).
Proof.
  assert (R : reachable sample_float_of_str LeftToRight store_after_distribution).
  { unfold store_after_distribution, store_after_donation.
    apply reachable_step. apply reachable_step. apply reachable_empty. }
  split; [exact R|].
  exact (reachable_rows_well_formed sample_float_of_str LeftToRight _ R).
Defined.

(** After the donation of 500 the balance and the stats are as for empty
    tables. *)
Lemma donate_preserves_balance_witness :
  current_balance LeftToRight store_after_donation = current_balance LeftToRight empty_store
  /\ donors store_after_donation <> donors empty_store.
Proof.
  split; [|vm_compute; discriminate].
  exact (proj1 (proj2 (donate_preserves_balance sample_float_of_str LeftToRight sample_env
                         (post (donation_form "500")) empty_store))).
Defined.

(** After the donation of 500 a proposal of 100 is rejected against a
    balance of 0; the first distribution stored in the example is -5. *)
Lemma first_distribution_not_positive_witness :
  reachable sample_float_of_str LeftToRight store_after_donation
  /\ distribute sample_float_of_str LeftToRight sample_env
       (post (distribution_form "100")) store_after_donation
     = (store_after_donation,
        Redirect (MsgExceeds (F64.of_Z 100) F64.zero, error) EpDistribute).
Proof.
  assert (R : reachable sample_float_of_str LeftToRight store_after_donation).
  { unfold store_after_donation. apply reachable_step. apply reachable_empty. }
  split; [exact R|].
  destruct (first_distribution_not_positive sample_float_of_str LeftToRight _ R) as [H _].
  apply H.
  - reflexivity.
  - reflexivity.
  - vm_compute. reflexivity.
  - vm_compute. reflexivity.
Defined.

(** A donation of -20 under the category "misc" paid by "paypal" is stored,
    and the donor is told to use net banking. *)
Lemma donate_stores_as_submitted_witness :
  F64.truthy (F64.of_Z (-20)) = true
  /\ snd (donate sample_float_of_str sample_env
            (post [("name", "Asha"); ("email", "asha@example.org"); ("amount", "-20");
                   ("category", "misc"); ("payment_method", "paypal")]%string)
            empty_store)
     = Redirect (MsgNetBanking, info) EpIndex
  /\ map Donor.amount
       (donors (fst (donate sample_float_of_str sample_env
                       (post [("name", "Asha"); ("email", "asha@example.org");
                              ("amount", "-20"); ("category", "misc");
                              ("payment_method", "paypal")]%string)
                       empty_store)))
     = [F64.of_Z (-20)].
Proof.
  split; [reflexivity|].
  rewrite (donate_stores_as_submitted sample_float_of_str sample_env
             (post [("name", "Asha"); ("email", "asha@example.org"); ("amount", "-20");
                    ("category", "misc"); ("payment_method", "paypal")]%string)
             empty_store "Asha" "asha@example.org" "misc" (F64.of_Z (-20)));
    try reflexivity; try discriminate.
  split; reflexivity.
Defined.

(** Against the balance of 1000 a distribution of 300 is stored and leaves
    700; one of 1001 is rejected. *)
Lemma whole_distribution_never_overdraws_witness :
  current_balance LeftToRight
    (fst (distribute sample_float_of_str LeftToRight sample_env
            (post (distribution_form "300")) scenario_store))
  = F64.of_Z 700
  /\ balance_exceeded
       (snd (distribute sample_float_of_str LeftToRight sample_env
               (post (distribution_form "1001")) scenario_store)) = true.
Proof.
  assert (Wd : whole_amounts (map Donor.amount (completed_donors (donors scenario_store)))
                 [1000]).
  { split; [reflexivity|]. split; [repeat constructor; lia|]. vm_compute. reflexivity. }
  assert (Wt : whole_amounts
                 (map Distribution.amount
                    (completed_distributions (distributions scenario_store))) []).
  { split; [reflexivity|]. split; [constructor|]. vm_compute. reflexivity. }
  split.
  - destruct (whole_distribution_never_overdraws sample_float_of_str LeftToRight
                sample_env (post (distribution_form "300")) scenario_store
                [1000] [] 300 Wd Wt eq_refl) as [_ [E|(_ & B & _)]].
    + vm_compute. reflexivity.
    + lia.
    + exfalso. revert E. vm_compute. discriminate.
    + exact B.
  - destruct (whole_distribution_never_overdraws sample_float_of_str LeftToRight
                sample_env (post (distribution_form "1001")) scenario_store
                [1000] [] 1001 Wd Wt eq_refl) as [[_ X] _].
    + vm_compute. reflexivity.
    + lia.
    + apply X. vm_compute. reflexivity.
Defined.

(** A distribution of minus infinity into empty tables is stored.  A
    proposal of 1000000, rejected on empty tables, is then stored as well,
    and after it a further one is still not rejected. *)
Lemma negative_infinity_defeats_guard_witness :
  balance_exceeded
    (snd (distribute special_float_of_str LeftToRight sample_env
            (post (distribution_form "1000000")) empty_store)) = true
  /\ List.length (distributions store_after_infinity_and_million) = 2%nat
  /\ balance_exceeded
       (snd (distribute special_float_of_str LeftToRight sample_env
               (post (distribution_form "1000000")) store_after_infinity_and_million))
     = false.
Proof.
  split; [vm_compute; reflexivity|]. split; [reflexivity|].
  destruct (negative_infinity_defeats_guard special_float_of_str LeftToRight sample_env
              (post (distribution_form "-inf")) empty_store eq_refl eq_refl) as [_ H].
  destruct (H eq_refl eq_refl) as [_ K].
  destruct (K store_after_infinity_and_million) as [_ N].
  - unfold store_after_infinity_and_million, store_after_infinity.
    apply from_step. apply from_here.
  - exact (N sample_env (post (distribution_form "1000000"))).
Defined.

(** 500 for food and 300 under an unknown tag: the food bucket is 500, the
    other buckets are 0, and 500 + 300 is the total of 800. *)
Lemma donation_buckets_add_up_witness :
  Forall (fun d => Donor.amount d = F64.of_Z (two_donations_amount d)
                   /\ 0 <= two_donations_amount d) two_donations
  /\ Zsum (map two_donations_amount two_donations) < 2 ^ 53
  /\ ctx_total_donations (summarize Compensated two_donations []) = F64.of_Z 800
  /\ Zsum (map (fun c => Zsum (map two_donations_amount (donations_in c two_donations)))
             category_keys) = 500.
Proof.
  assert (W : Forall (fun d => Donor.amount d = F64.of_Z (two_donations_amount d)
                               /\ 0 <= two_donations_amount d) two_donations).
  { repeat constructor; cbn; lia. }
  assert (L : Zsum (map two_donations_amount two_donations) < 2 ^ 53)
    by (vm_compute; reflexivity).
  split; [exact W|]. split; [exact L|].
  destruct (donation_buckets_add_up Compensated two_donations [] two_donations_amount W L)
    as (_ & T & S).
  split; [exact T|]. vm_compute. reflexivity.
Defined.

(** A form that carries [payment_method] twice, the first time empty. *)
Lemma get_form_data_default_only_if_absent_witness :
  get_form_data [("payment_method", ""); ("payment_method", "card")]%string
    "payment_method" (PyStr "upi") = PyStr ""
  /\ get_form_data [("name", "Asha")]%string "payment_method" (PyStr "upi") = PyStr "upi".
Proof.
  split.
  - destruct (get_form_data_default_only_if_absent
                [("payment_method", ""); ("payment_method", "card")]%string
                "payment_method" (PyStr "upi")) as (_ & _ & F).
    apply (F [] ""%string [("payment_method", "card")]%string eq_refl).
    intros v' [].
  - destruct (get_form_data_default_only_if_absent [("name", "Asha")]%string
                "payment_method" (PyStr "upi")) as (A & _).
    apply A. intros v [H|[]]. discriminate H.
Defined.

(* ================================================================== *)
(** * The heap program computes the summary and touches nothing else   *)
(* ================================================================== *)

Lemma heap_update_length (h : Heap) (a : nat) (f : Bucket -> Bucket) :
  List.length (heap_update h a f) = List.length h.
Proof.
  revert a. induction h as [|b h IH]; intros [|a]; cbn; auto.
Qed.

Lemma heap_update_nth_same (h : Heap) (a : nat) (f : Bucket -> Bucket) :
  (a < List.length h)%nat ->
  nth a (heap_update h a f) empty_bucket = f (nth a h empty_bucket).
Proof.
  revert a. induction h as [|b h IH]; intros [|a] L; cbn in *; try lia; auto.
  apply IH. lia.
Qed.

Lemma heap_update_nth_other (h : Heap) (a a' : nat) (f : Bucket -> Bucket) :
  a' <> a -> nth a' (heap_update h a f) empty_bucket = nth a' h empty_bucket.
Proof.
  revert a a'. induction h as [|b h IH]; intros [|a] [|a'] N; cbn; auto; try congruence.
Qed.

Lemma heap_update_firstn (h : Heap) (a n : nat) (f : Bucket -> Bucket) :
  (n <= a)%nat -> firstn n (heap_update h a f) = firstn n h.
Proof.
  revert a n. induction h as [|b h IH]; intros [|a] [|n] L; cbn; auto; try lia.
  f_equal. apply IH. lia.
Qed.

Lemma dereference_other (h : Heap) (d : ObjectDict) (a : nat) (f : Bucket -> Bucket) :
  ~ In a (map snd d) -> dereference (heap_update h a f) d = dereference h d.
Proof.
  induction d as [|[k a'] d IH]; cbn; [reflexivity|]. intros N.
  rewrite heap_update_nth_other by (intros ->; apply N; now left).
  f_equal. apply IH. intros I. apply N. now right.
Qed.

Lemma object_lookup_in (d : ObjectDict) (k : string) (a : nat) :
  object_lookup d k = Some a -> In a (map snd d).
Proof.
  induction d as [|[k' a'] d IH]; cbn; [discriminate|].
  destruct (String.eqb k' k); [intros [= ->]; now left|intros H; right; auto].
Qed.

(** Updating the object that a key refers to is updating the entry of the
    key. *)
Lemma dereference_update (h : Heap) (d : ObjectDict) (k : string) (a : nat)
    (f : Bucket -> Bucket) :
  NoDup (map snd d) -> object_lookup d k = Some a -> (a < List.length h)%nat ->
  dereference (heap_update h a f) d = dict_update (dereference h d) k f.
Proof.
  induction d as [|[k' a'] d IH]; cbn [map snd object_lookup dereference dict_update];
    [discriminate|].
  intros ND L B. inversion ND as [|? ? Nin ND']; subst.
  destruct (String.eqb k' k) eqn:E.
  - injection L as ->. rewrite heap_update_nth_same by exact B.
    f_equal. now apply dereference_other.
  - rewrite heap_update_nth_other
      by (intros ->; apply Nin; eapply object_lookup_in; eassumption).
    f_equal. now apply IH.
Qed.

Lemma dereference_get (h : Heap) (d : ObjectDict) (k : string) :
  dict_get (dereference h d) k
  = match object_lookup d k with
    | Some a => Some (nth a h empty_bucket)
    | None => None
    end.
Proof.
  induction d as [|[k' a'] d IH]; cbn; [reflexivity|].
  destruct (String.eqb k' k); [reflexivity|exact IH].
Qed.

Lemma same_but_objects_refl (n : nat) (p : Process) : same_but_objects_from n p p.
Proof. repeat split. Qed.

Lemma same_but_objects_trans (n : nat) (p q r : Process) :
  same_but_objects_from n p q -> same_but_objects_from n q r ->
  same_but_objects_from n p r.
Proof. intros (A & B & C) (A' & B' & C'). repeat split; congruence. Qed.

Lemma own_objects_length (n : nat) (d : ObjectDict) (h h' : Heap) :
  List.length h' = List.length h -> own_objects n d h -> own_objects n d h'.
Proof. intros E [ND F]. split; [exact ND|]. now rewrite E. Qed.

(** One pass of the first loop: the object of the donation's category is
    updated, seen through the dictionary this is [count_donation]. *)
Lemma tally_donation_spec (n : nat) (d : ObjectDict) (x : Donor.t) (p : Process) :
  own_objects n d (proc_heap p) ->
  let q := snd (tally_donation d x p) in
  same_but_objects_from n p q
  /\ dereference (proc_heap q) d = count_donation (dereference (proc_heap p) d) x.
Proof.
  intros [ND F] q. unfold q, tally_donation, count_donation, dict_mem.
  destruct (Donor.category x) as [|k|z]; try (split; [apply same_but_objects_refl|reflexivity]).
  rewrite dereference_get.
  destruct (object_lookup d k) as [a|] eqn:L;
    [|split; [apply same_but_objects_refl|reflexivity]].
  pose proof (object_lookup_in d k a L) as I.
  rewrite Forall_forall in F. specialize (F a I).
  cbn [update_object snd proc_heap proc_store key_of]. split.
  - repeat split; cbn [proc_store proc_heap].
    + apply heap_update_length.
    + apply heap_update_firstn. lia.
  - apply dereference_update; [exact ND|exact L|lia].
Qed.

Lemma tally_distribution_spec (n : nat) (d : ObjectDict) (x : Distribution.t) (p : Process) :
  own_objects n d (proc_heap p) ->
  let q := snd (tally_distribution d x p) in
  same_but_objects_from n p q
  /\ dereference (proc_heap q) d = count_distribution (dereference (proc_heap p) d) x.
Proof.
  intros [ND F] q. unfold q, tally_distribution, count_distribution, dict_mem.
  destruct (Distribution.category x) as [|k|z];
    try (split; [apply same_but_objects_refl|reflexivity]).
  rewrite dereference_get.
  destruct (object_lookup d k) as [a|] eqn:L;
    [|split; [apply same_but_objects_refl|reflexivity]].
  pose proof (object_lookup_in d k a L) as I.
  rewrite Forall_forall in F. specialize (F a I).
  cbn [update_object snd proc_heap proc_store key_of]. split.
  - repeat split; cbn [proc_store proc_heap].
    + apply heap_update_length.
    + apply heap_update_firstn. lia.
  - apply dereference_update; [exact ND|exact L|lia].
Qed.

(** A loop whose body behaves as a step [step] on the dictionary behaves as
    the fold of [step]. *)
Lemma for_each_spec {A : Type} (n : nat) (d : ObjectDict)
    (body : A -> Action unit) (step : Categories -> A -> Categories) :
  (forall x p, own_objects n d (proc_heap p) ->
     same_but_objects_from n p (snd (body x p))
     /\ dereference (proc_heap (snd (body x p))) d
        = step (dereference (proc_heap p) d) x) ->
  forall rows p, own_objects n d (proc_heap p) ->
    same_but_objects_from n p (snd (for_each rows body p))
    /\ dereference (proc_heap (snd (for_each rows body p))) d
       = fold_left step rows (dereference (proc_heap p) d).
Proof.
  intros Hbody. induction rows as [|x rows IH]; intros p O; cbn [for_each fold_left].
  - split; [apply same_but_objects_refl|reflexivity].
  - unfold bind. destruct (Hbody x p O) as [S1 D1].
    destruct (body x p) as [[] p1]. cbn [snd] in S1, D1.
    assert (O1 : own_objects n d (proc_heap p1))
      by (eapply own_objects_length; [apply S1|exact O]).
    destruct (IH p1 O1) as [S2 D2]. split.
    + eapply same_but_objects_trans; eassumption.
    + now rewrite D2, D1.
Qed.

Lemma nth_fresh (h : Heap) (a : nat) :
  (List.length h <= a)%nat ->
  nth a (h ++ [empty_bucket; empty_bucket; empty_bucket; empty_bucket; empty_bucket])
    empty_bucket = empty_bucket.
Proof.
  intros L. rewrite app_nth2 by lia.
  destruct (a - List.length h)%nat as [|[|[|[|[|[|]]]]]]; reflexivity.
Qed.

(** The literal allocates five objects after the ones alive. *)
Lemma categories_literal_spec (p : Process) :
  let n := List.length (proc_heap p) in
  let d := fst (categories_literal p) in
  let q := snd (categories_literal p) in
  proc_store q = proc_store p
  /\ proc_heap q = proc_heap p ++ [empty_bucket; empty_bucket; empty_bucket;
                                   empty_bucket; empty_bucket]
  /\ own_objects n d (proc_heap q)
  /\ dereference (proc_heap q) d = initial_categories.
Proof.
  intros n d q. unfold d, q, categories_literal, bind, new_object, ret.
  cbn [fst snd proc_store proc_heap]. rewrite <- !app_assoc. cbn [app].
  rewrite !length_app. cbn [List.length]. fold n.
  split; [reflexivity|]. split; [reflexivity|]. split.
  - split.
    + cbn [map snd]. repeat constructor; cbn; lia.
    + cbn [map snd]. rewrite length_app. cbn [List.length]. fold n.
      repeat constructor; lia.
  - unfold dereference, initial_categories. cbn [map].
    rewrite !nth_fresh by lia. reflexivity.
Qed.

Section HomePage.

Variable alg : summation.

(** Run on any process, the heap program returns the response of [index]
    on the tables, leaves the tables as they are and every object alive
    before where and as it was. *)
Lemma index_program_spec (env : Env) (req : Request) (p : Process) :
  fst (index_program alg env req p) = snd (index alg env req (proc_store p))
  /\ proc_store (snd (index_program alg env req p)) = proc_store p
  /\ exists fresh,
       proc_heap (snd (index_program alg env req p)) = proc_heap p ++ fresh.
Proof.
  unfold index_program, bind, query_donors_newest_first,
    query_distributions_newest_first, read_categories, ret.
  set (donations := order_by_desc Donor.date (donors (proc_store p))).
  set (distributions_ := order_by_desc Distribution.date (distributions (proc_store p))).
  pose proof (categories_literal_spec p) as (S1 & H1 & O1 & D1).
  destruct (categories_literal p) as [d p1]. cbn [fst snd] in S1, H1, O1, D1.
  set (n := List.length (proc_heap p)) in *.
  destruct (for_each_spec n d (tally_donation d) count_donation
              (tally_donation_spec n d) donations p1 O1) as [F2 D2].
  destruct (for_each donations (tally_donation d) p1) as [[] p2]. cbn [snd] in F2, D2.
  assert (O2 : own_objects n d (proc_heap p2))
    by (eapply own_objects_length; [apply F2|exact O1]).
  destruct (for_each_spec n d (tally_distribution d) count_distribution
              (tally_distribution_spec n d) distributions_ p2 O2) as [F3 D3].
  destruct (for_each distributions_ (tally_distribution d) p2) as [[] p3].
  cbn [fst snd] in F3, D3 |- *.
  destruct F2 as (A2 & B2 & C2). destruct F3 as (A3 & B3 & C3).
  split; [|split].
  - unfold index, summarize. cbn [snd]. fold donations distributions_.
    now rewrite D3, D2, D1.
  - congruence.
  - exists (skipn n (proc_heap p3)).
    rewrite <- (firstn_skipn n (proc_heap p3)) at 1. f_equal.
    rewrite C3, C2, H1. unfold n. rewrite firstn_app, firstn_all, Nat.sub_diag.
    cbn [firstn]. apply app_nil_r.
Qed.

(** C8.  The home page is computed without side effects and from the
    tables alone.  Run on any process, whatever objects are alive on its
    heap and whatever the clock and the submitted form, [index] leaves the
    tables as they are and every object alive before where and as it was:
    its in-place updates go to the five dictionaries it has created
    itself.  Its response is the summary of the rows of the tables, so two
    processes with the same tables give the same response, and a second
    run, on the heap that the first run has left behind, gives the
    identical response. *)
Theorem index_deterministic_pure
    (env env' : Env) (req req' : Request) (p p' : Process) :
  let response := fst (index_program alg env req p) in
  let after := snd (index_program alg env req p) in
  proc_store after = proc_store p
  /\ (exists fresh, proc_heap after = proc_heap p ++ fresh)
  /\ response
     = RenderIndex
         (summarize alg (order_by_desc Donor.date (donors (proc_store p)))
            (order_by_desc Distribution.date (distributions (proc_store p))))
  /\ response = snd (index alg env req (proc_store p))
  /\ (proc_store p' = proc_store p ->
      fst (index_program alg env' req' p') = response)
  /\ fst (index_program alg env' req' after) = response.
Proof.
  intros response after. unfold response, after.
  destruct (index_program_spec env req p) as (R & S & F).
  split; [exact S|]. split; [exact F|]. split; [exact R|]. split; [exact R|]. split.
  - intros E. destruct (index_program_spec env' req' p') as (R' & _ & _).
    rewrite R', R, E. reflexivity.
  - destruct (index_program_spec env' req' (snd (index_program alg env req p)))
      as (R' & _ & _).
    rewrite R', R, S. reflexivity.
Qed.

End HomePage.

(** Two runs in a row on a process that already holds a dictionary with
    figures in it: the old dictionary is still the first object of the
    heap, ten new ones follow it, and both runs report a total of 800 and
    500 for food. *)
Lemma index_deterministic_pure_witness :
  let p := mkProcess two_donations_store [mkBucket (F64.of_Z 7) (F64.of_Z 9)] in
  let once := index_program Compensated sample_env (post []) p in
  let twice := index_program Compensated failing_env (post (donation_form "5")) (snd once) in
  fst twice = fst once
  /\ proc_store (snd twice) = two_donations_store
  /\ firstn 1 (proc_heap (snd twice)) = [mkBucket (F64.of_Z 7) (F64.of_Z 9)]
  /\ List.length (proc_heap (snd twice)) = 11%nat
  /\ response_totals (fst once) = Some (F64.of_Z 800, F64.zero, F64.of_Z 800).
Proof.
  intros p once twice. split.
  - exact (proj2 (proj2 (proj2 (proj2 (proj2
             (index_deterministic_pure Compensated sample_env failing_env (post [])
                (post (donation_form "5")) p p)))))).
  - vm_compute. repeat split.
Defined.
